(* ===== verification/_CoqProject ===== *)
-Q . S2P
Prelude.v
KeyFormat.v
ChunkCodec.v
KVStore.v
ChunkSet.v
Metadata.v
World.v
Handlers.v
Transfer.v
Upload.v
EndToEnd.v
Shell.v
Components.v
Session.v
Refinement.v
