(* ===== verification/Prelude.v ===== *)
(** * A verification development for [src/auto_chunk.py]

    The program ([src/auto_chunk.py], one Python file) stores large files as
    chunked values in a DAOS key-value object ("pydaos_kvstore_dict") and
    keeps a side catalogue of uploads in [metadata.json].  Its parts, and
    how they interact:

    - the start-up code and the command loop (lines 16-20, 232-252) read
      the chunk size, then dispatch each command line to a handler;
    - the handlers [upload_file], [read_key], [delete_key1] (bound to [p])
      and the unused [delete_key] (lines 81-230) each combine the metadata
      store, the object store and the chunk codec;
    - the chunk codec: the upload loop that reads a file with
      [f.read(CHUNK_SIZE)] and names each piece [f"{key}chunk{i}"]
      (lines 211-219), and the read loop that concatenates the pieces
      fetched by [bget], skipping absent ones (lines 97-104);
    - the metadata store: [append_to_json_file], [delete_by_key],
      [get_pool_and_container], [print_keys] (lines 34-79, 169-183);
    - the object store adapter: the pydaos [DDict] of a container, external
      (not under src/), modelled from the spec (sections 4.2 and 6).

    ** Files, in dependency order

    - [Prelude] (this file): exceptions ([exn]), printed lines ([Msg], one
      constructor per [print]), the exception-and-state monad [st] with
      [x <- m ;; k] in [py_scope] and [py_try] for [try/except],
      insertion-ordered Python dicts ([dict_set], [dict_of_list]), the
      measure [nonincr] with its closure lemmas, the [pyauto] hints and
      the [nonincr_solve] tactic.
    - [KeyFormat]: module [ChunkKey] ([str(i)] as [str_of_nat], [chunk_key],
      the comprehension [chunk_keys], a parser [parse_chunk_key] with its
      round trip and the injectivity of the key format) and module [PyPath]
      ([str.startswith], [posixpath.join], [dirname], [basename]).
    - [ChunkCodec]: module [Split] ([py_read] for [f.read(n)], the loop
      [upload_loop] with fuel, its closed form [chunks_of] and the lemma
      [upload_loop_spec] that [upload_fuel] rounds suffice) and module
      [Join] (the read loop [assemble] and its reference [join_spec]).
    - [KVStore]: the interface of a dict as the classes [DDictOps] and
      [DDictLaws]; [len], [in], [bget], [bput], [pop] derived from it; the
      equivalence [dd_equiv] with its [Proper] instances; the [gmap]
      instance.  Every handler theorem holds for any instance, and the
      witnesses run on [gmap string bytes].
    - [ChunkSet]: [holds_chunks d key cs] (the chunks of [key] in [d] are
      exactly [cs]) with a decision procedure, and what [bput] and the read
      loop do to it.
    - [Metadata]: module [Meta], the records and operations of
      [metadata.json], the abstraction [meta_abs] to a map from key to the
      first record, and the abstract catalogue ([spec_add], [spec_remove],
      [spec_lookup]) it refines.
    - [World]: the state of a run ([World]: metadata file, containers, local
      files and directories, standard input and output, a logical clock, the
      result of container discovery) and one statement per DAOS, file,
      console or clock call, with their [nonincr] lemmas.
    - [Handlers]: the handlers, statement by statement.
    - [Transfer], [Upload]: the behaviour of [read_key], [delete_key1],
      [delete_key] and [upload_file] on each branch, by symbolic execution
      (the tactic [st_run]).
    - [EndToEnd]: claims on sequences of handlers (upload then read, delete
      then read, re-upload, zero chunk size, directories, discovery
      failures, [delete_key]).
    - [Shell]: [py_int] ([int()] in base 10), [startup], [command],
      [iteration], [main_loop] and [program], with the library lemmas on
      them: the termination of the program ([program_terminates]), the
      loop over command lines ([main_loop_simple]), the [int()] round trip
      on decimal strings ([py_int_decimal_of_Z]).
    - [Components]: claims on the codec, the key format and the save path.
    - [Session]: claims on whole runs of [program] and on the chunk size
      the start-up code sets.
    - [Refinement]: the abstract store of files (key to bytes), the relation
      [refines] between a world and it, a sound checker [refinesb], and the
      simulation theorems for upload, read and delete.

    ** What the theorems show

    Round trips: a file uploaded and read back is saved byte for byte, for
    every non-zero chunk size and any dict implementation; chunk keys parse
    back to their key and index.  Functional behaviour on
    every branch of each handler, errors included, and the behaviours the
    spec calls failure modes or leaves open: the [TypeError] of a read or
    delete without record, the [KeyError] of [delete_key1] when the
    container holds other entries, stale chunks after a re-upload, orphan
    records, non-positive chunk sizes, a key that escapes [uploads], the
    uncaught [TypeError] when no container opens, the prefix match of
    [delete_key].  Invariants: an upload keeps the chunks of every other
    key.  Refinements: the metadata operations implement the abstract
    catalogue, and upload of a fresh key, read and delete implement
    insertion, lookup and removal on a store of files.  Whole runs: the
    chunk size the start-up code sets ([z] MiB for the line [str(z)]), a
    session [u], [r], [q], a session that runs out of input (uncaught
    [EOFError]), and an invalid chunk size (uncaught [ValueError]).

    ** Bounds and fuel

    [upload_loop] runs with [S (length data)] rounds: each round that goes
    on consumes at least one byte, so the out-of-fuel value is never
    reached ([upload_loop_spec]).  [main_loop] runs with
    [S (length stdin)] turns: each turn reads its command line and no
    handler reads more than it prompts for ([nonincr]), so it ends at [q]
    or at an exception ([program_terminates]).  Integers are Python
    integers ([Z]); sizes and counts are [nat].

    ** Not modelled

    The prompts of [input()] (they are not part of the state); the exact
    time values (a logical clock, so only differences are printed);
    [pool_test.list_containers_in_pool_with_max_targets], whose result is
    the field [w_discovery]; the text of exception messages ([exn] keeps
    the exception and its argument); concurrent access to [metadata.json]
    or to a container (the program is single-threaded); non-ASCII input
    beyond 8-bit characters in [int()].
*)

From stdpp Require Import base list strings gmap.
From Stdlib Require Import ZArith Lia.

(** ** Bytes *)

Abbreviation bytes := (list Byte.byte).

#[export] Instance byte_eq_decision : EqDecision Byte.byte := Byte.byte_eq_dec.

(** ** Python exceptions raised by the modelled code *)

Inductive exn :=
| KeyError (k : string)           (** [dict.pop] of an absent key *)
| TypeError                       (** [pool, container = None] *)
| DaosError (pool cont : string)  (** [DCont(pool, cont)] on a missing container *)
| EOFError                        (** [input()] at the end of standard input *)
| ValueError (s : string)         (** [int(s)] of a non-integer *)
| FileNotFoundError (p : string)  (** [open(p, "wb")] in a missing directory *)
| IsADirectoryError (p : string)  (** [open(p, "rb")] on a directory *)
| FileExistsError (p : string).   (** [os.makedirs(p)] over a regular file *)

(** ** Printed lines

    One constructor per [print] of the source, elapsed times as the
    difference of two readings of the clock. *)

Inductive Msg :=
| MsgCommands                              (** line 233 *)
| MsgHelp                                  (** [print_help], lines 23-28 *)
| MsgContainerError (c : string) (e : exn) (** line 14 *)
| MsgSaved (path : string)                 (** line 33 *)
| MsgKey (k : string)                      (** line 43 *)
| MsgMetaMissing                           (** lines 39, 49, 73 *)
| MsgAllDeleted (k : string)               (** line 56 *)
| MsgKeyNotInData (k : string)             (** line 58 *)
| MsgReadOk (chunks : nat) (secs : Z)      (** line 111 *)
| MsgKeyNotFound                           (** line 113 *)
| MsgReadError (e : exn)                   (** line 115 *)
| MsgKeyDeleted                            (** line 136 *)
| MsgKeyNotDeleted                         (** line 138 *)
| MsgDeleteError (e : exn)                 (** line 141 *)
| MsgChunksDeleted (k : string)            (** line 166 *)
| MsgNoKeyFound                            (** line 168 *)
| MsgUploaded (chunks : nat) (secs : Z)    (** line 226 *)
| MsgUploadError (e : exn)                 (** line 228 *)
| MsgFileNotFound                          (** line 230 *)
| MsgInvalid                               (** line 250 *)
| MsgEnded.                                (** line 252 *)

(** ** The exception-and-state monad

    A statement of the program runs on a state [S] and either returns a
    value or raises a Python exception; the state reached when the
    exception is raised is kept, as Python keeps every effect done before
    the [raise]. *)

Definition st (S A : Type) := S -> S * (exn + A).

Definition ret {S A} (a : A) : st S A := fun s => (s, inr a).

Definition raise {S A} (e : exn) : st S A := fun s => (s, inl e).

Definition bind {S A B} (m : st S A) (k : A -> st S B) : st S B :=
  fun s => match m s with
           | (s', inl e) => (s', inl e)
           | (s', inr a) => k a s'
           end.

(** [try: m except Exception as e: h e] *)
Definition py_try {S A} (m : st S A) (h : exn -> st S A) : st S A :=
  fun s => match m s with
           | (s', inl e) => h e s'
           | (s', inr a) => (s', inr a)
           end.

Declare Scope py_scope.
Delimit Scope py_scope with py.
Notation "x <- m ;; k" := (bind m (fun x => k))
  (at level 100, m at next level, right associativity) : py_scope.
Notation "m ;; k" := (bind m (fun _ => k))
  (at level 100, right associativity) : py_scope.

(** ** Python dicts

    A [dict] keeps its keys in insertion order; [d[k] = v] replaces the
    value of a present key in place and appends a new key at the end. *)

Section PyDict.
Context {K V : Type} `{EqDecision K}.

Fixpoint dict_set (k : K) (v : V) (d : list (K * V)) : list (K * V) :=
  match d with
  | [] => [(k, v)]
  | (k', v') :: d' => if decide (k = k') then (k, v) :: d' else (k', v') :: dict_set k v d'
  end.

(** A dict built from its items in order, as [{k: v for ...}] does. *)
Definition dict_of_list (l : list (K * V)) : list (K * V) :=
  fold_left (fun d kv => dict_set kv.1 kv.2 d) l [].

Lemma dict_set_fresh (k : K) (v : V) (d : list (K * V)) :
  k ∉ d.*1 -> dict_set k v d = d ++ [(k, v)].
Proof.
  induction d as [|[k' v'] d IH]; intros Hk; [done|].
  simpl in *. rewrite decide_False by set_solver. rewrite IH; set_solver.
Qed.

Lemma dict_of_list_app_fresh (acc l : list (K * V)) :
  NoDup (acc.*1 ++ l.*1) ->
  fold_left (fun d kv => dict_set kv.1 kv.2 d) l acc = acc ++ l.
Proof.
  revert acc. induction l as [|[k v] l IH]; intros acc Hnd; simpl.
  - by rewrite app_nil_r.
  - rewrite dict_set_fresh.
    + rewrite IH, <- app_assoc; [done|].
      rewrite fmap_app, <- app_assoc. simpl. done.
    + intros Hin. apply NoDup_app in Hnd as (_ & Hdis & _).
      apply (Hdis k); [done | simpl; set_solver].
Qed.

Lemma dict_of_list_nodup (l : list (K * V)) :
  NoDup l.*1 -> dict_of_list l = l.
Proof. intros Hnd. unfold dict_of_list. by rewrite dict_of_list_app_fresh. Qed.
End PyDict.

(** ** Shared list lemmas *)

(** Sum of a [list bytes] equals the length of its concatenation. *)
Lemma length_concat_sum (ls : list bytes) :
  length (concat ls) = sum_list (length <$> ls).
Proof. induction ls as [|l ls IH]; [done|]. rewrite fmap_cons; cbn [sum_list concat]. rewrite length_app, IH. done. Qed.

Lemma omap_fmap {A B C} (f : B -> option C) (g : A -> B) (l : list A) :
  omap f (g <$> l) = omap (f ∘ g) l.
Proof. induction l as [|x l IH]; csimpl; [done|]. destruct (f (g x)); by rewrite IH. Qed.

(** ** Statements that do not increase a measure of the state

    [nonincr μ m]: running [m] never increases [μ] (for the command loop:
    the number of unread input lines).  The closure lemmas make it a
    syntactic check on a handler, done by [nonincr_solve] with the hints
    of [pyauto]. *)

Section Measure.
Context {S : Type} (μ : S -> nat).

Definition nonincr {A} (m : st S A) : Prop := ∀ s, μ (m s).1 <= μ s.

Lemma nonincr_ret {A} (a : A) : nonincr (ret a).
Proof. intros s. done. Qed.

Lemma nonincr_raise {A} (e : exn) : nonincr (raise (A := A) e).
Proof. intros s. done. Qed.

Lemma nonincr_bind {A B} (m : st S A) (k : A -> st S B) :
  nonincr m -> (∀ a, nonincr (k a)) -> nonincr (bind m k).
Proof.
  intros Hm Hk s. unfold bind. specialize (Hm s).
  destruct (m s) as [s' [e|a]]; simpl in *; [done|]. etrans; [apply Hk|done].
Qed.

Lemma nonincr_try {A} (m : st S A) (h : exn -> st S A) :
  nonincr m -> (∀ e, nonincr (h e)) -> nonincr (py_try m h).
Proof.
  intros Hm Hh s. unfold py_try. specialize (Hm s).
  destruct (m s) as [s' [e|a]]; simpl in *; [|done]. etrans; [apply Hh|done].
Qed.

End Measure.

(** ** Automation *)

Create HintDb pyauto discriminated.
#[export] Hint Resolve nonincr_ret nonincr_raise : pyauto.

(** Decompose a statement into the primitives whose [nonincr] lemmas are
    in [pyauto]. *)
Ltac nonincr_solve :=
  repeat first
    [ progress eauto with pyauto
    | match goal with
      | |- nonincr _ (bind _ _) => apply nonincr_bind; [|intros ?]
      | |- nonincr _ (py_try _ _) => apply nonincr_try; [|intros ?]
      | |- nonincr _ (if ?b then _ else _) => destruct b
      | |- nonincr _ (match ?x with _ => _ end) => destruct x
      | |- nonincr _ (let _ := _ in _) => cbv zeta
      end ].
