(* ===== verification/KeyFormat.v ===== *)
(** * KeyFormat: the strings the program builds

    - [str_of_nat i] is Python's [str(i)] for [i >= 0], the text that an
      f-string writes for [{i}];
    - [chunk_key key i] is [f"{key}chunk{i}"] (lines 97, 131, 217 of
      [src/auto_chunk.py]) and [chunk_keys key n] the dict comprehension
      [{f"{key}chunk{i}": None for i in range(n)}] (lines 97, 131);
    - [parse_chunk_key] recovers [(key, i)] from a chunk key: the round trip
      shows that the key format is injective, so the chunks of two uploads
      never share a store key and the comprehension never merges entries;
    - [py_startswith] is [str.startswith] (line 163);
    - [path_join], [dirname] and [basename] are [os.path.join],
      [os.path.dirname] and [os.path.basename] of [posixpath]: the first
      names the retrieved file (line 30), the second decides whether it can
      be created, the last names the uploaded file in its record (line 206). *)

From stdpp Require Import base list strings.
From Stdlib Require Import Ascii String DecimalString DecimalNat.
From S2P Require Import Prelude.

Module ChunkKey.

(** [str(i)]: decimal digits, no sign, no leading zero ([str(0)] is "0"). *)
Definition str_of_nat (n : nat) : string :=
  NilEmpty.string_of_uint (Nat.to_uint n).

(** [f"{key}chunk{i}"] *)
Definition chunk_key (key : string) (i : nat) : string :=
  key +:+ "chunk" +:+ str_of_nat i.

(** [{f"{key}chunk{i}": None for i in range(n)}]; [None] is [tt]. *)
Definition chunk_keys (key : string) (n : nat) : list (string * unit) :=
  dict_of_list ((λ i, (chunk_key key i, tt)) <$> seq 0 n).

(** *** A parser of chunk keys *)

Definition is_digit (c : ascii) : bool :=
  let n := nat_of_ascii c in (48 <=? n) && (n <=? 57).

(** The longest prefix of digits, and the rest. *)
Fixpoint span_digits (l : list ascii) : list ascii * list ascii :=
  match l with
  | [] => ([], [])
  | c :: l' =>
      if is_digit c then let '(ds, r) := span_digits l' in (c :: ds, r)
      else ([], l)
  end.

Fixpoint strip_prefix (p l : list ascii) : option (list ascii) :=
  match p, l with
  | [], _ => Some l
  | c :: p', c' :: l' => if decide (c = c') then strip_prefix p' l' else None
  | _ :: _, [] => None
  end.

(** Read the string backwards: the trailing digits are the index, then
    comes "chunk" (reversed), and what is left is the user key. *)
Definition parse_chunk_key (s : string) : option (string * nat) :=
  let '(rds, rest) := span_digits (rev (list_ascii_of_string s)) in
  match strip_prefix (rev (list_ascii_of_string "chunk")) rest with
  | Some rkey =>
      u ← NilEmpty.uint_of_string (string_of_list_ascii (rev rds));
      Some (string_of_list_ascii (rev rkey), Nat.of_uint u)
  | None => None
  end.

(** *** Lemmas *)

Lemma list_ascii_of_string_append (a b : string) :
  list_ascii_of_string (a +:+ b) = list_ascii_of_string a ++ list_ascii_of_string b.
Proof. induction a as [|c a IH]; simpl; [done|]. by rewrite IH. Qed.

Lemma str_of_nat_digits (n : nat) :
  Forall (λ c, is_digit c = true) (list_ascii_of_string (str_of_nat n)).
Proof.
  unfold str_of_nat. generalize (Nat.to_uint n) as u.
  induction u; simpl; constructor; done.
Qed.

Lemma span_digits_app (l1 l2 : list ascii) :
  Forall (λ c, is_digit c = true) l1 ->
  (∀ c l2', l2 = c :: l2' -> is_digit c = false) ->
  span_digits (l1 ++ l2) = (l1, l2).
Proof.
  intros Hd Hnd. induction Hd as [|c l1 Hc _ IH]; simpl.
  - destruct l2 as [|c l2']; [done|]. simpl. by rewrite (Hnd c l2').
  - by rewrite Hc, IH.
Qed.

Lemma strip_prefix_app (p l : list ascii) : strip_prefix p (p ++ l) = Some l.
Proof. induction p as [|c p IH]; simpl; [done|]. by rewrite decide_True. Qed.

(** The parser inverts the key format. *)
Lemma parse_chunk_key_chunk_key (key : string) (i : nat) :
  parse_chunk_key (chunk_key key i) = Some (key, i).
Proof.
  unfold parse_chunk_key, chunk_key.
  rewrite !list_ascii_of_string_append, !rev_app_distr, <- app_assoc.
  rewrite span_digits_app.
  2: { apply Forall_rev, str_of_nat_digits. }
  2: { intros c l2' Heq. injection Heq as <- _. reflexivity. }
  rewrite strip_prefix_app, !rev_involutive, !string_of_list_ascii_of_string.
  unfold str_of_nat. rewrite NilEmpty.usu. simpl. by rewrite Unsigned.of_to.
Qed.

Lemma chunk_key_inj (k k' : string) (i j : nat) :
  chunk_key k i = chunk_key k' j -> k = k' ∧ i = j.
Proof.
  intros Heq. apply (f_equal parse_chunk_key) in Heq.
  rewrite !parse_chunk_key_chunk_key in Heq. by injection Heq.
Qed.

Lemma chunk_key_nodup (key : string) (start n : nat) :
  NoDup (chunk_key key <$> seq start n).
Proof.
  apply NoDup_fmap_2; [|apply NoDup_seq].
  intros i j Heq. by apply chunk_key_inj in Heq as [_ ->].
Qed.

(** The comprehension has exactly [n] entries, in index order. *)
Lemma chunk_keys_spec (key : string) (n : nat) :
  chunk_keys key n = (λ i, (chunk_key key i, tt)) <$> seq 0 n.
Proof.
  unfold chunk_keys. apply dict_of_list_nodup.
  rewrite <- list_fmap_compose. apply chunk_key_nodup.
Qed.

End ChunkKey.

Module PyPath.

(** [s.startswith(p)] *)
Definition py_startswith (s p : string) : bool := String.prefix p s.

Definition ends_with_slash (a : string) : bool :=
  bool_decide (last (list_ascii_of_string a) = Some "/"%char).

(** [posixpath.join(a, b)]: an absolute [b] replaces [a]. *)
Definition path_join (a b : string) : string :=
  if py_startswith b "/" then b
  else if bool_decide (a = "") || ends_with_slash a then a +:+ b
  else a +:+ "/" +:+ b.

Fixpoint drop_while {A} (f : A -> bool) (l : list A) : list A :=
  match l with
  | [] => []
  | x :: l' => if f x then drop_while f l' else l
  end.

Definition is_slash (c : ascii) : bool := bool_decide (c = "/"%char).

Fixpoint take_while {A} (f : A -> bool) (l : list A) : list A :=
  match l with
  | [] => []
  | x :: l' => if f x then x :: take_while f l' else []
  end.

(** [posixpath.dirname(p)]: [head = p[:p.rfind('/') + 1]], then trailing
    slashes are removed unless [head] is made of slashes only. *)
Definition dirname (p : string) : string :=
  let head := rev (drop_while (λ c, negb (is_slash c)) (rev (list_ascii_of_string p))) in
  if forallb is_slash head then string_of_list_ascii head
  else string_of_list_ascii (rev (drop_while is_slash (rev head))).

(** [posixpath.basename(p)]: what follows the last slash. *)
Definition basename (p : string) : string :=
  string_of_list_ascii (rev (take_while (λ c, negb (is_slash c)) (rev (list_ascii_of_string p)))).

Lemma py_startswith_slash (a : ascii) (s : string) :
  py_startswith (String a s) "/" = is_slash a.
Proof.
  unfold py_startswith, is_slash. cbn [String.prefix].
  destruct (ascii_dec "/"%char a) as [<-|Hne]; [by destruct s|]. rewrite bool_decide_false; [done|].
  by intros ->.
Qed.

Lemma drop_while_app_all {A} (f : A -> bool) (l1 l2 : list A) :
  Forall (λ x, f x = true) l1 -> drop_while f (l1 ++ l2) = drop_while f l2.
Proof. induction 1 as [|x l1 Hx _ IH]; simpl; [done|]. by rewrite Hx. Qed.

Lemma drop_while_none {A} (f : A -> bool) (l : list A) :
  Forall (λ x, f x = false) l -> drop_while f l = l.
Proof. destruct 1 as [|x l Hx _]; simpl; [done|]. by rewrite Hx. Qed.

Lemma forallb_app_head_false {A} (f : A -> bool) (l r : list A) :
  l ≠ [] -> Forall (λ x, f x = false) l -> forallb f (l ++ r) = false.
Proof. destruct 2 as [|x l Hx _]; simpl; [done|]. by rewrite Hx. Qed.

(** A file name without a slash joined to a directory name without a
    slash lands in that directory. *)
Lemma dirname_path_join (d f : string) :
  d ≠ "" -> py_startswith f "/" = false ->
  Forall (λ c, is_slash c = false) (list_ascii_of_string f) ->
  Forall (λ c, is_slash c = false) (list_ascii_of_string d) ->
  path_join d f = d +:+ "/" +:+ f ∧ dirname (path_join d f) = d.
Proof.
  intros Hd Hstart Hf Hdn.
  remember (list_ascii_of_string d) as ld eqn:Hld.
  assert (ld ≠ []) as Hne.
  { intros ->. apply Hd. by rewrite <- (string_of_list_ascii_of_string d), <- Hld. }
  assert (ends_with_slash d = false) as Hends.
  { unfold ends_with_slash. rewrite <- Hld. apply bool_decide_eq_false.
    intros Hlast. apply last_Some in Hlast as [l' Hl']. rewrite Hl' in Hdn.
    apply Forall_app in Hdn as [_ Hdn]. by inversion Hdn. }
  assert (path_join d f = d +:+ "/" +:+ f) as Hj.
  { unfold path_join. by rewrite Hstart, bool_decide_false, Hends. }
  rewrite Hj. split; [done|]. unfold dirname.
  rewrite !ChunkKey.list_ascii_of_string_append, <- Hld. cbn [list_ascii_of_string].
  rewrite !rev_app_distr, <- app_assoc, drop_while_app_all.
  2: { apply Forall_rev. eapply Forall_impl; [exact Hf|]. intros c ->. done. }
  assert (is_slash "/"%char = true) as Hs by reflexivity.
  cbn [rev app drop_while]. rewrite Hs. cbn [negb rev app].
  rewrite rev_involutive, forallb_app_head_false by done.
  rewrite rev_app_distr. cbn [rev app drop_while]. rewrite Hs.
  rewrite drop_while_none by (by apply Forall_rev).
  rewrite rev_involutive, Hld. apply string_of_list_ascii_of_string.
Qed.

End PyPath.
