(* ===== verification/ChunkCodec.v ===== *)
(** * ChunkCodec: splitting a file into chunks and joining them back

    - [Split] models the upload loop of [upload_file] (lines 211-219 of
      [src/auto_chunk.py]): [f.read(CHUNK_SIZE)] until it returns [b""],
      storing each piece under [f"{key}chunk{chunk_count}"] in [chunk_dict].
      [py_read] is [f.read(n)] ([n < 0] reads to the end).  The loop is a
      [Fixpoint] with fuel; [S (length data)] rounds always suffice
      ([upload_loop_spec]).  Its specification is the closed form
      [chunks_of]: chunk [i] is [data[i*s:(i+1)*s]] for [i < ceil(len/s)].
    - [Join] models the read-side loop of [read_key] (lines 101-104): the
      [bget] result is scanned in key order, present chunks are appended and
      counted, absent ones ([None]) are skipped. *)

From stdpp Require Import base list strings.
From Stdlib Require Import ZArith Lia.
From S2P Require Import Prelude KeyFormat.
Import ChunkKey.

Module Split.

(** [f.read(size)] on a binary file whose unread bytes are [rest]:
    the bytes read and the bytes left. *)
Definition py_read (size : Z) (rest : bytes) : bytes * bytes :=
  if (size <? 0)%Z then (rest, [])
  else (take (Z.to_nat size) rest, drop (Z.to_nat size) rest).

(** Lines 212-219:
<<
  chunk_count = 0
  while True:
      data = f.read(CHUNK_SIZE)
      if not data: break
      chunk_key = f"{key}chunk{chunk_count}"
      chunk_dict[chunk_key] = data
      chunk_count += 1
>>
    [None] when the fuel runs out. *)
Fixpoint upload_loop (fuel : nat) (chunk_size : Z) (key : string) (rest : bytes)
    (chunk_count : nat) (chunk_dict : list (string * bytes))
    : option (list (string * bytes) * nat) :=
  match fuel with
  | O => None
  | S fuel' =>
      let '(data, rest') := py_read chunk_size rest in
      match data with
      | [] => Some (chunk_dict, chunk_count)
      | _ => upload_loop fuel' chunk_size key rest' (S chunk_count)
               (dict_set (chunk_key key chunk_count) data chunk_dict)
      end
  end.

(** Enough rounds for any file: one per byte and a last empty read. *)
Definition upload_fuel (data : bytes) : nat := S (length data).

(** *** The closed-form specification *)

(** [ceil(len / s)] for [s > 0] *)
Definition n_chunks (s len : nat) : nat := (len + s - 1) / s.

Definition chunks_of (size : Z) (data : bytes) : list bytes :=
  if (size <? 0)%Z then match data with [] => [] | _ => [data] end
  else if (size =? 0)%Z then []
  else let s := Z.to_nat size in
       (λ i, take s (drop (i * s) data)) <$> seq 0 (n_chunks s (length data)).

(** The entries of [chunk_dict]: the [i]-th chunk under [chunk_key key i]. *)
Definition chunk_entries (key : string) (cs : list bytes) : list (string * bytes) :=
  zip (chunk_key key <$> seq 0 (length cs)) cs.

(** *** Lemmas *)

Lemma n_chunks_step (s len : nat) :
  0 < s -> 0 < len -> n_chunks s len = S (n_chunks s (len - s)).
Proof.
  intros Hs Hl. unfold n_chunks.
  destruct (decide (len <= s)) as [Hle|Hgt].
  - replace (len - s) with 0 by lia. rewrite Nat.add_0_l, (Nat.div_small (s - 1) s) by lia.
    symmetry. apply Nat.div_unique with (r := len - 1); lia.
  - replace (len + s - 1) with (1 * s + (len - s + s - 1)) by lia.
    rewrite Nat.div_add_l by lia. lia.
Qed.

(** For a positive size the closed form unfolds like the loop. *)
Lemma chunks_of_pos_unfold (size : Z) (data : bytes) :
  (0 < size)%Z ->
  chunks_of size data =
    match data with
    | [] => []
    | _ => take (Z.to_nat size) data :: chunks_of size (drop (Z.to_nat size) data)
    end.
Proof.
  intros Hs. unfold chunks_of.
  rewrite (proj2 (Z.ltb_ge _ _)), (proj2 (Z.eqb_neq _ _)) by lia.
  set (s := Z.to_nat size). assert (0 < s) by lia.
  destruct data as [|b data'].
  { unfold n_chunks. simpl. by rewrite Nat.div_small by lia. }
  rewrite n_chunks_step by (simpl; lia). simpl (seq _ _). rewrite fmap_cons.
  f_equal. rewrite <- fmap_S_seq, <- list_fmap_compose, length_drop.
  apply list_fmap_ext. intros j i _. simpl. by rewrite drop_drop, Nat.add_comm.
Qed.

Lemma take_nil_iff {A} (n : nat) (l : list A) :
  0 < n -> take n l = [] <-> l = [].
Proof. intros Hn. destruct l, n; simpl; split; intros; try done; lia. Qed.

(** The loop from any round [c], with [acc] holding the chunks [0..c-1]. *)
Lemma upload_loop_pos (fuel : nat) (size : Z) (key : string) (data : bytes)
    (c : nat) (acc : list (string * bytes)) :
  (0 < size)%Z -> length data < fuel -> acc.*1 = chunk_key key <$> seq 0 c ->
  upload_loop fuel size key data c acc =
    Some (acc ++ zip (chunk_key key <$> seq c (length (chunks_of size data)))
                     (chunks_of size data),
          c + length (chunks_of size data)).
Proof.
  intros Hs. revert data c acc.
  induction fuel as [|fuel IH]; intros data c acc Hf Hacc; [lia|].
  rewrite (chunks_of_pos_unfold size data Hs). simpl.
  unfold py_read. rewrite (proj2 (Z.ltb_ge _ _)) by lia.
  destruct data as [|b data'] eqn:Hd.
  { rewrite take_nil. simpl. by rewrite app_nil_r, Nat.add_0_r. }
  destruct (take (Z.to_nat size) (b :: data')) as [|b0 t] eqn:Ht.
  { apply take_nil_iff in Ht; [done|lia]. }
  assert (chunk_key key c ∉ acc.*1) as Hfresh.
  { rewrite Hacc. intros (i & Hi & Hin)%list_elem_of_fmap.
    apply chunk_key_inj in Hi as [_ ->]. apply elem_of_seq in Hin. lia. }
  rewrite <- Ht, dict_set_fresh by done. rewrite IH.
  - simpl. rewrite <- app_assoc. do 2 f_equal. lia.
  - rewrite length_drop. simpl in *. lia.
  - rewrite fmap_app, Hacc, seq_S. simpl. by rewrite fmap_app.
Qed.

(** Termination and functional behaviour of the loop: with
    [upload_fuel data] rounds it stops, with the entries of [chunks_of]. *)
Lemma upload_loop_spec (fuel : nat) (size : Z) (key : string) (data : bytes) :
  upload_fuel data <= fuel ->
  upload_loop fuel size key data 0 [] =
    Some (chunk_entries key (chunks_of size data), length (chunks_of size data)).
Proof.
  unfold upload_fuel, chunk_entries. intros Hf.
  destruct (Z.lt_trichotomy size 0) as [Hneg|[->|Hpos]].
  - assert ((size <? 0)%Z = true) as Hlt by (apply Z.ltb_lt; lia).
    destruct fuel as [|fuel]; [lia|].
    unfold chunks_of. rewrite Hlt. simpl. unfold py_read. rewrite Hlt.
    destruct data as [|b data']; [done|].
    destruct fuel as [|fuel]; [simpl in Hf; lia|].
    simpl. unfold py_read. by rewrite Hlt.
  - destruct fuel; [lia|]. done.
  - rewrite upload_loop_pos; [done|done|lia|done].
Qed.

(** Round trip: concatenating the chunks gives the file back, for any
    non-zero chunk size. *)
Lemma chunks_of_concat (size : Z) (data : bytes) :
  size ≠ 0%Z -> concat (chunks_of size data) = data.
Proof.
  intros Hs. destruct (Z.lt_trichotomy size 0) as [Hneg|[->|Hpos]]; [|done|].
  - unfold chunks_of. rewrite (proj2 (Z.ltb_lt _ _)) by lia.
    destruct data; simpl; [done|]. by rewrite app_nil_r.
  - induction data as [data IH] using (induction_ltof1 _ (@length _)).
    rewrite chunks_of_pos_unfold by done.
    destruct data as [|b data']; [done|]. simpl (concat _).
    rewrite IH; [apply take_drop|]. unfold ltof. rewrite length_drop. simpl. lia.
Qed.

(** Shape of the chunks for a positive size [s]: every chunk is
    non-empty and at most [s] long, every chunk but the last is exactly
    [s] long, and there are [ceil(len/s)] of them. *)
Lemma chunks_of_shape (size : Z) (data : bytes) :
  (0 < size)%Z ->
  length (chunks_of size data) = n_chunks (Z.to_nat size) (length data) ∧
  ∀ i c, chunks_of size data !! i = Some c ->
    0 < length c <= Z.to_nat size ∧
    (S i < length (chunks_of size data) -> length c = Z.to_nat size).
Proof.
  intros Hs. split.
  { unfold chunks_of. rewrite (proj2 (Z.ltb_ge _ _)), (proj2 (Z.eqb_neq _ _)) by lia.
    by rewrite length_fmap, length_seq. }
  induction data as [data IH] using (induction_ltof1 _ (@length _)).
  intros i c. rewrite !(chunks_of_pos_unfold size data Hs).
  destruct data as [|b data']; [done|].
  destruct i as [|i]; simpl.
  - intros [= <-]. rewrite length_take. split; [simpl; lia|].
    intros Hlt. destruct (chunks_of size (drop (Z.to_nat size) (b :: data'))) eqn:Hr.
    { simpl in Hlt. lia. }
    assert (drop (Z.to_nat size) (b :: data') ≠ []) as Hne.
    { intros Hnil. rewrite Hnil in Hr. rewrite chunks_of_pos_unfold in Hr by done. done. }
    assert (Z.to_nat size < length (b :: data')).
    { destruct (decide (Z.to_nat size < length (b :: data'))); [done|].
      exfalso. apply Hne, drop_ge. lia. }
    simpl in *. lia.
  - intros Hi. apply IH in Hi as [Hb Hlast]; [|unfold ltof; rewrite length_drop; simpl; lia].
    split; [done|]. intros Hlt. apply Hlast. lia.
Qed.

End Split.

Module Join.

(** Lines 101-104:
<<
  for chunk_key, chunk in chunks.items():
      if chunk is not None:
          assembled_data += chunk
          chunk_count += 1
>> *)
Fixpoint assemble (chunks : list (string * option bytes)) (assembled_data : bytes)
    (chunk_count : nat) : bytes * nat :=
  match chunks with
  | [] => (assembled_data, chunk_count)
  | (_, Some chunk) :: rest => assemble rest (assembled_data ++ chunk) (S chunk_count)
  | (_, None) :: rest => assemble rest assembled_data chunk_count
  end.

(** The reference: concatenate the present chunks, count them. *)
Definition join_spec (chunks : list (string * option bytes)) : bytes * nat :=
  (concat (omap snd chunks), length (omap snd chunks)).

Lemma assemble_acc (chunks : list (string * option bytes)) (acc : bytes) (n : nat) :
  assemble chunks acc n = (acc ++ (join_spec chunks).1, n + (join_spec chunks).2).
Proof.
  unfold join_spec. revert acc n.
  induction chunks as [|[k [c|]] chunks IH]; intros acc n; simpl.
  - by rewrite app_nil_r, Nat.add_0_r.
  - rewrite IH. cbn [fst snd]. f_equal; [by rewrite app_assoc | by rewrite Nat.add_succ_r].
  - apply IH.
Qed.

End Join.
