(* ===== verification/KVStore.v ===== *)
(** * KVStore: the pydaos key-value object

    The program keeps its chunks in the [DDict] "pydaos_kvstore_dict" of a
    DAOS container (pydaos is not under src/: the object store adapter is
    modelled from the spec, sections 4.2 and 6).  The interface is a pair of
    classes: [DDictOps] holds the primitive operations of a dict ([get],
    [put], [remove], the list of keys) and [DDictLaws] what the store
    promises about them.  Everything the program calls is derived from the
    interface in [Section Client]: [len(d)] ([dd_len]), [k in d]
    ([dd_contains]), [d.bget(keys)] ([bget]), [d.bput(entries)] ([bput]),
    [d.pop(k)] ([pop], which raises [KeyError] on an absent key, as the spec
    says of delete), and the client lemmas are proved from the laws only.
    [gmap string bytes] is an instance; [dd_equiv] (same lookups) is the
    equivalence the client operations respect. *)

From stdpp Require Import base list strings gmap.
From S2P Require Import Prelude.

Class DDictOps (D : Type) := {
  dd_empty : D;
  dd_get : D -> string -> option bytes;
  dd_put : string -> bytes -> D -> D;
  dd_remove : string -> D -> D;
  dd_keys : D -> list string;
}.

Class DDictLaws (D : Type) `{DDictOps D} := {
  dd_get_empty k : dd_get dd_empty k = None;
  dd_get_put k v d k' :
    dd_get (dd_put k v d) k' = if decide (k = k') then Some v else dd_get d k';
  dd_get_remove k d k' :
    dd_get (dd_remove k d) k' = if decide (k = k') then None else dd_get d k';
  dd_keys_spec d k : k ∈ dd_keys d <-> is_Some (dd_get d k);
  dd_keys_nodup d : NoDup (dd_keys d);
}.

Section Client.
Context `{DDictLaws D}.

(** [len(daos_dict)] *)
Definition dd_len (d : D) : nat := length (dd_keys d).

(** [key in daos_dict] *)
Definition dd_contains (d : D) (k : string) : bool := bool_decide (is_Some (dd_get d k)).

(** [daos_dict.bget(chunk_keys)]: the requested keys in order, each with
    its value or [None]. *)
Definition bget (d : D) (keys : list (string * unit)) : list (string * option bytes) :=
  (λ kv, (kv.1, dd_get d kv.1)) <$> keys.

(** [daos_dict.bput(chunk_dict)] *)
Definition bput (d : D) (entries : list (string * bytes)) : D :=
  foldl (λ d kv, dd_put kv.1 kv.2 d) d entries.

(** [daos_dict.pop(key)]: the value and the dict without it, or
    [KeyError]. *)
Definition pop (d : D) (k : string) : exn + (bytes * D) :=
  match dd_get d k with
  | Some v => inr (v, dd_remove k d)
  | None => inl (KeyError k)
  end.

(** Two dicts with the same lookups. *)
Definition dd_equiv (d1 d2 : D) : Prop := ∀ k, dd_get d1 k = dd_get d2 k.

#[export] Instance dd_equiv_equivalence : Equivalence dd_equiv.
Proof. split; repeat intro; congruence. Qed.

Lemma bput_get_notin (d : D) (es : list (string * bytes)) (k : string) :
  k ∉ es.*1 -> dd_get (bput d es) k = dd_get d k.
Proof.
  revert d. induction es as [|[k' v] es IH]; intros d Hk; [done|].
  simpl in *. rewrite IH by set_solver. rewrite dd_get_put. case_decide; set_solver.
Qed.

Lemma bput_get_in (d : D) (es : list (string * bytes)) (k : string) (v : bytes) :
  NoDup es.*1 -> (k, v) ∈ es -> dd_get (bput d es) k = Some v.
Proof.
  revert d. induction es as [|[k' v'] es IH]; intros d Hnd Hin;
    [by apply not_elem_of_nil in Hin|].
  simpl in *. apply NoDup_cons in Hnd as [Hk' Hnd].
  apply elem_of_cons in Hin as [[= -> ->]|Hin].
  - rewrite bput_get_notin by done. by rewrite dd_get_put, decide_True.
  - by apply IH.
Qed.

Lemma pop_ok (d : D) (k : string) (v : bytes) :
  dd_get d k = Some v -> pop d k = inr (v, dd_remove k d).
Proof. unfold pop. by intros ->. Qed.

Lemma pop_missing (d : D) (k : string) :
  dd_get d k = None -> pop d k = inl (KeyError k).
Proof. unfold pop. by intros ->. Qed.

(** [len] counts distinct present keys: [n] distinct present keys make
    [len(d) >= n]. *)
Lemma dd_len_ge (d : D) (ks : list string) :
  NoDup ks -> (∀ k, k ∈ ks -> is_Some (dd_get d k)) -> length ks <= dd_len d.
Proof.
  intros Hnd Hin. unfold dd_len. apply NoDup_incl_length; [by apply NoDup_ListNoDup|].
  intros k Hk%list_elem_of_In. apply list_elem_of_In, dd_keys_spec. by apply Hin.
Qed.

#[export] Instance dd_get_proper : Proper (dd_equiv ==> eq ==> eq) dd_get.
Proof. intros d1 d2 Hd k ? <-. apply Hd. Qed.

#[export] Instance dd_len_proper : Proper (dd_equiv ==> eq) dd_len.
Proof.
  intros d1 d2 Hd. unfold dd_len. apply Permutation_length, NoDup_Permutation;
    [apply dd_keys_nodup..|]. intros k. rewrite !dd_keys_spec. by rewrite (Hd k).
Qed.

#[export] Instance bget_proper : Proper (dd_equiv ==> eq ==> eq) bget.
Proof. intros d1 d2 Hd ks ? <-. apply list_fmap_ext. intros _ [k u] _. simpl. by rewrite (Hd k). Qed.

#[export] Instance dd_put_proper k v : Proper (dd_equiv ==> dd_equiv) (dd_put k v).
Proof. intros d1 d2 Hd k'. rewrite !dd_get_put. case_decide; [done|apply Hd]. Qed.

#[export] Instance bput_proper : Proper (dd_equiv ==> eq ==> dd_equiv) bput.
Proof.
  intros d1 d2 Hd es ? <-. revert d1 d2 Hd.
  induction es as [|[k v] es IH]; intros d1 d2 Hd; [done|]. simpl. apply IH. by rewrite Hd.
Qed.
End Client.

(** ** The [gmap] instance *)

#[export] Instance gmap_ddict_ops : DDictOps (gmap string bytes) := {
  dd_empty := ∅;
  dd_get m k := m !! k;
  dd_put k v m := <[k:=v]> m;
  dd_remove k m := delete k m;
  dd_keys m := (map_to_list m).*1;
}.

#[export] Instance gmap_ddict_laws : DDictLaws (gmap string bytes).
Proof.
  split; simpl.
  - intros k. apply lookup_empty.
  - intros k v d k'. apply lookup_insert.
  - intros k d k'. apply lookup_delete.
  - intros d k. rewrite list_elem_of_fmap. split.
    + intros ([k' v] & -> & Hin%elem_of_map_to_list). by exists v.
    + intros [v Hv]. exists (k, v). split; [done|]. by apply elem_of_map_to_list.
  - intros d. apply NoDup_fst_map_to_list.
Qed.
