(* ===== verification/ChunkSet.v ===== *)
(** * ChunkSet: the chunks of one key inside a dict

    [holds_chunks d key cs] says that the dict [d] holds the chunks [cs] of
    [key] under the indices [0 .. length cs - 1] and no chunk of [key] with
    a larger index: the spec's "N chunk entries with contiguous indices".
    The lemmas, proved from the [DDictLaws] only, are what the handlers
    rely on:
    - reading: [len(d)] is at least the number of chunks, and the
      [bget]/[assemble] of [read_key] returns their concatenation
      ([assemble_holds]);
    - writing: the [bput] of [upload_file] overwrites a prefix of the chunk
      list and leaves the older chunks past it in place ([bput_holds]); it
      leaves the chunks of every other key alone ([bput_holds_other]);
    - deciding: [holds_chunksb] checks [holds_chunks] over the finitely
      many keys of the dict ([holds_chunksb_spec]), which makes it a
      [Decision] instance the witnesses evaluate. *)

From stdpp Require Import base list strings gmap.
From S2P Require Import Prelude KeyFormat ChunkCodec KVStore.
Import ChunkKey Split Join.

Section ChunkSet.
Context `{DDictLaws D}.

Definition holds_chunks (d : D) (key : string) (cs : list bytes) : Prop :=
  ∀ i, dd_get d (chunk_key key i) = cs !! i.

(** The check of [holds_chunks] over the finitely many keys of [d]: the
    chunks [0 .. length cs - 1] are in place, and no key of [d] is a chunk
    key of [key] with a larger index. *)
Definition stray_chunk (key : string) (n : nat) (k : string) : bool :=
  match parse_chunk_key k with
  | Some (k', i) => bool_decide (k' = key ∧ k = chunk_key key i ∧ n <= i)
  | None => false
  end.

Definition holds_chunksb (d : D) (key : string) (cs : list bytes) : bool :=
  forallb (λ i, bool_decide (dd_get d (chunk_key key i) = cs !! i)) (seq 0 (length cs)) &&
  negb (existsb (stray_chunk key (length cs)) (dd_keys d)).

Lemma holds_chunks_len (d : D) (key : string) (cs : list bytes) :
  holds_chunks d key cs -> length cs <= dd_len d.
Proof.
  intros Hd.
  replace (length cs) with (length (chunk_key key <$> seq 0 (length cs)))
    by (by rewrite length_fmap, length_seq).
  apply dd_len_ge; [apply chunk_key_nodup|].
  intros k (i & -> & Hi%elem_of_seq)%list_elem_of_fmap. rewrite Hd.
  apply lookup_lt_is_Some. lia.
Qed.

Lemma omap_lookup_seq (cs : list bytes) (n : nat) :
  length cs <= n -> omap (λ i, cs !! i) (seq 0 n) = cs.
Proof.
  revert n. induction cs as [|c cs IH]; intros n Hn.
  - clear Hn. induction n as [|n IHn]; [done|]. by rewrite seq_S, omap_app, IHn.
  - destruct n as [|n]; [simpl in Hn; lia|]. simpl. f_equal.
    rewrite <- fmap_S_seq, omap_fmap. apply IH. simpl in Hn. lia.
Qed.

Lemma bget_chunk_keys (d : D) (key : string) (cs : list bytes) (n : nat) :
  holds_chunks d key cs ->
  bget d (chunk_keys key n) = (λ i, (chunk_key key i, cs !! i)) <$> seq 0 n.
Proof.
  intros Hd. unfold bget. rewrite chunk_keys_spec, <- list_fmap_compose.
  apply list_fmap_ext. intros _ i _. simpl. by rewrite Hd.
Qed.

(** The [bget] of the chunk keys below [n], on any dict. *)
Lemma bget_chunk_keys_get (d : D) (key : string) (n : nat) :
  bget d (chunk_keys key n) = (λ i, (chunk_key key i, dd_get d (chunk_key key i))) <$> seq 0 n.
Proof.
  unfold bget. rewrite chunk_keys_spec, <- list_fmap_compose. by apply list_fmap_ext.
Qed.

(** The read loop over [range(n)] returns the chunks when [n] covers them. *)
Lemma assemble_holds (d : D) (key : string) (cs : list bytes) (n : nat) :
  holds_chunks d key cs -> length cs <= n ->
  assemble (bget d (chunk_keys key n)) [] 0 = (concat cs, length cs).
Proof.
  intros Hd Hn. rewrite (bget_chunk_keys d key cs n Hd), assemble_acc. unfold join_spec.
  assert (omap snd ((λ i, (chunk_key key i, cs !! i)) <$> seq 0 n) = cs) as ->; [|done].
  rewrite omap_fmap. by apply omap_lookup_seq.
Qed.

Lemma chunk_entries_elem (key : string) (cs : list bytes) (i : nat) (c : bytes) :
  cs !! i = Some c -> (chunk_key key i, c) ∈ chunk_entries key cs.
Proof.
  intros Hi. unfold chunk_entries. apply list_elem_of_lookup. exists i.
  apply lookup_zip_Some. split; [|done].
  rewrite list_lookup_fmap, lookup_seq_lt by (by eapply lookup_lt_Some). done.
Qed.

Lemma chunk_entries_keys (key : string) (cs : list bytes) :
  (chunk_entries key cs).*1 = chunk_key key <$> seq 0 (length cs).
Proof.
  unfold chunk_entries. rewrite fst_zip; [done|]. by rewrite length_fmap, length_seq.
Qed.

(** What [bput] of the entries of [cs'] leaves of a chunk list [cs]. *)
Lemma bput_holds (d : D) (key : string) (cs cs' : list bytes) :
  holds_chunks d key cs ->
  holds_chunks (bput d (chunk_entries key cs')) key (cs' ++ drop (length cs') cs).
Proof.
  intros Hd i. destruct (decide (i < length cs')) as [Hi|Hi].
  - rewrite lookup_app_l by done. destruct (lookup_lt_is_Some_2 cs' i Hi) as [c Hc].
    rewrite Hc. apply bput_get_in; [|by apply chunk_entries_elem].
    rewrite chunk_entries_keys. apply chunk_key_nodup.
  - rewrite lookup_app_r, lookup_drop by lia. rewrite bput_get_notin, Hd.
    + f_equal. lia.
    + rewrite chunk_entries_keys. intros (j & Hj & Hj'%elem_of_seq)%list_elem_of_fmap.
      apply chunk_key_inj in Hj as [_ ->]. lia.
Qed.

(** Writing the chunks of [key'] keeps the chunks of any other key. *)
Lemma bput_holds_other (d : D) (key key' : string) (cs cs' : list bytes) :
  key ≠ key' -> holds_chunks d key cs ->
  holds_chunks (bput d (chunk_entries key' cs')) key cs.
Proof.
  intros Hne Hd i. rewrite bput_get_notin; [apply Hd|].
  rewrite chunk_entries_keys. intros (j & Hj & _)%list_elem_of_fmap.
  by apply chunk_key_inj in Hj as [-> _].
Qed.

Lemma holds_chunksb_spec (d : D) (key : string) (cs : list bytes) :
  holds_chunksb d key cs = true <-> holds_chunks d key cs.
Proof.
  unfold holds_chunksb. rewrite andb_true_iff, negb_true_iff, forallb_forall.
  split.
  - intros [Hin Hout] i. destruct (decide (i < length cs)) as [Hi|Hi].
    + apply (bool_decide_eq_true_1 _), Hin, in_seq. lia.
    + rewrite (lookup_ge_None_2 cs i) by lia.
      destruct (dd_get d (chunk_key key i)) as [v|] eqn:Hv; [|done]. exfalso.
      assert (chunk_key key i ∈ dd_keys d) as Hk by (apply dd_keys_spec; by eexists).
      apply list_elem_of_In in Hk.
      assert (existsb (stray_chunk key (length cs)) (dd_keys d) = true) as Ht; [|congruence].
      apply existsb_exists. exists (chunk_key key i). split; [done|]. unfold stray_chunk.
      rewrite parse_chunk_key_chunk_key. apply (bool_decide_eq_true_2 _).
      split; [done|]. split; [done|lia].
  - intros Hd. split.
    + intros i Hi%in_seq. apply (bool_decide_eq_true_2 _), Hd.
    + apply not_true_iff_false. intros (k & Hk & Hs)%existsb_exists. unfold stray_chunk in Hs.
      destruct (parse_chunk_key k) as [[k' i]|]; [|done].
      apply (bool_decide_eq_true_1 _) in Hs as (-> & -> & Hi).
      apply list_elem_of_In, dd_keys_spec in Hk. rewrite Hd, lookup_ge_None_2 in Hk by lia.
      by destruct Hk.
Qed.

#[export] Instance holds_chunks_dec (d : D) (key : string) (cs : list bytes) :
  Decision (holds_chunks d key cs).
Proof.
  destruct (holds_chunksb d key cs) eqn:Hb; [left | right];
    [by apply holds_chunksb_spec | intros Hd%holds_chunksb_spec; congruence].
Defined.

End ChunkSet.
