(* ===== verification/Metadata.v ===== *)
(** * Metadata: the [metadata.json] catalogue

    [metadata.json] holds a JSON list of records
    [{pool, container, key, filename, size, upload_time}] (lines 202-209 of
    [src/auto_chunk.py]).  The file is [option (list MetaRecord)]: [None]
    when it does not exist.  Each operation reads the whole list and, when
    it changes it, writes the whole list back:
    [append_to_json_file] (lines 169-183), [delete_by_key] (lines 44-58),
    [get_pool_and_container] (lines 61-79), [print_keys] (lines 34-43).
    They return the printed lines.

    [meta_abs] abstracts the list to a [gmap] from a key to the first
    record with that key, which is the record [get_pool_and_container]
    finds; the refinement lemmas say how each operation acts on it.
    [append_to_json_file] does not check for a duplicate key, so appending
    a second record for a key leaves the abstraction unchanged.  The
    abstract catalogue [spec_state] (no file, or a map from key to record)
    with [spec_add], [spec_remove] and [spec_lookup] is what the spec's
    Metadata Store promises; [meta_refinement] shows that the operations of
    [Meta] implement it through [file_abs]. *)

From stdpp Require Import base list strings gmap.
From Stdlib Require Import ZArith.
From S2P Require Import Prelude.

Record MetaRecord := mkMeta {
  m_pool : string;
  m_container : string;
  m_key : string;
  m_filename : string;
  m_size : Z;
  m_upload_time : Z;
}.

Abbreviation MetaFile := (option (list MetaRecord)).

Module Meta.

(** Lines 169-183: a missing file reads as [[]]; the record is appended
    and the whole list written back. *)
Definition append_to_json_file (data : MetaRecord) (file : MetaFile) : MetaFile :=
  let existing_data := match file with Some l => l | None => [] end in
  Some (existing_data ++ [data]).

(** Lines 44-58: drop every record with the key; the file is rewritten
    only when something was dropped. *)
Definition delete_by_key (key : string) (file : MetaFile) : MetaFile * list Msg :=
  match file with
  | None => (None, [MsgMetaMissing])
  | Some data =>
      let new_data := filter (λ item, m_key item ≠ key) data in
      if decide (length new_data < length data)
      then (Some new_data, [MsgAllDeleted key])
      else (Some data, [MsgKeyNotInData key])
  end.

(** Lines 76-79: the first record with the key. *)
Fixpoint find_pool_container (key : string) (data : list MetaRecord)
    : option (string * string) :=
  match data with
  | [] => None
  | item :: rest =>
      if decide (m_key item = key) then Some (m_pool item, m_container item)
      else find_pool_container key rest
  end.

(** Lines 61-79 *)
Definition get_pool_and_container (key : string) (file : MetaFile)
    : option (string * string) * list Msg :=
  match file with
  | None => (None, [MsgMetaMissing])
  | Some data => (find_pool_container key data, [])
  end.

(** Lines 34-43 *)
Definition print_keys (file : MetaFile) : list Msg :=
  match file with
  | None => [MsgMetaMissing]
  | Some data => (λ item, MsgKey (m_key item)) <$> data
  end.

(** ** Abstraction: key to first record *)

Definition meta_abs (data : list MetaRecord) : gmap string MetaRecord :=
  foldr (λ r m, <[m_key r := r]> m) ∅ data.

Definition location (r : MetaRecord) : string * string := (m_pool r, m_container r).

(** The abstract catalogue: no file, or a map from a key to its record.
    Adding a record keeps the record a key already has; removing a key
    removes its record; the lookup gives the location of the record. *)
Definition spec_state : Type := option (gmap string MetaRecord).

Definition file_abs (file : MetaFile) : spec_state := meta_abs <$> file.

Definition spec_add (r : MetaRecord) (s : spec_state) : spec_state :=
  Some (default ∅ s ∪ {[m_key r := r]}).

Definition spec_remove (key : string) (s : spec_state) : spec_state := delete key <$> s.

Definition spec_lookup (key : string) (s : spec_state) : option (string * string) :=
  s ≫= λ m, location <$> m !! key.

Lemma find_pool_container_abs (key : string) (data : list MetaRecord) :
  find_pool_container key data = location <$> meta_abs data !! key.
Proof.
  induction data as [|r data IH]; simpl; [done|].
  rewrite lookup_insert. case_decide as Hk; [done|]. apply IH.
Qed.

Lemma meta_abs_filter (key : string) (data : list MetaRecord) :
  meta_abs (filter (λ item, m_key item ≠ key) data) = delete key (meta_abs data).
Proof.
  induction data as [|r data IH]; simpl.
  - by rewrite delete_empty.
  - rewrite filter_cons. case_decide as Hk; simpl.
    + by rewrite IH, delete_insert_ne.
    + by rewrite IH, Hk, delete_insert_eq.
Qed.

Lemma meta_abs_app (data : list MetaRecord) (r : MetaRecord) :
  meta_abs (data ++ [r]) = meta_abs data ∪ {[m_key r := r]}.
Proof.
  induction data as [|r' data IH]; simpl.
  - by rewrite insert_empty, map_empty_union.
  - by rewrite IH, insert_union_l.
Qed.

(** A key is absent from the abstraction iff no record has it. *)
Lemma meta_abs_None (key : string) (data : list MetaRecord) :
  meta_abs data !! key = None <-> Forall (λ r, m_key r ≠ key) data.
Proof.
  induction data as [|r data IH]; simpl.
  - split; [constructor|]. intros _. apply lookup_empty.
  - rewrite lookup_insert, Forall_cons. case_decide; [|naive_solver].
    split; [done|]. intros [Hne _]. congruence.
Qed.

(** After an append, the record found is the old one if there was one. *)
Lemma find_pool_container_app (key : string) (data : list MetaRecord) (r : MetaRecord) :
  find_pool_container key (data ++ [r]) =
    match find_pool_container key data with
    | Some pc => Some pc
    | None => if decide (m_key r = key) then Some (location r) else None
    end.
Proof.
  induction data as [|r' data IH]; cbn [app find_pool_container]; [done|].
  destruct (decide (m_key r' = key)); [done|]. apply IH.
Qed.

Lemma find_pool_container_filter (key : string) (data : list MetaRecord) :
  find_pool_container key (filter (λ item, m_key item ≠ key) data) = None.
Proof. by rewrite find_pool_container_abs, meta_abs_filter, lookup_delete_eq. Qed.

(** Dropping the records of one key keeps the record found for another. *)
Lemma find_pool_container_filter_other (key k : string) (data : list MetaRecord) :
  key ≠ k -> find_pool_container k (filter (λ item, m_key item ≠ key) data) =
             find_pool_container k data.
Proof. intros Hne. by rewrite !find_pool_container_abs, meta_abs_filter, lookup_delete_ne. Qed.

(** Appending a record of another key keeps the record found for [k]. *)
Lemma find_pool_container_app_other (k : string) (data : list MetaRecord) (r : MetaRecord) :
  m_key r ≠ k -> find_pool_container k (data ++ [r]) = find_pool_container k data.
Proof.
  intros Hne. rewrite find_pool_container_app, decide_False by done.
  by destruct (find_pool_container k data).
Qed.

(** [delete_by_key] on a file with a record of the key drops its records. *)
Lemma delete_by_key_found (key : string) (data : list MetaRecord) (pc : string * string) :
  find_pool_container key data = Some pc ->
  delete_by_key key (Some data) =
    (Some (filter (λ item, m_key item ≠ key) data), [MsgAllDeleted key]).
Proof.
  intros Hf. unfold delete_by_key. rewrite decide_True; [done|].
  revert Hf. induction data as [|r data IH]; intros Hf; [done|].
  rewrite filter_cons. cbn [find_pool_container] in Hf.
  destruct (decide (m_key r = key)) as [Hk|Hk].
  - rewrite decide_False by (intros Hn; by apply Hn).
    pose proof (length_filter (λ item, m_key item ≠ key) data). simpl. lia.
  - rewrite decide_True by done. simpl. apply le_n_S, IH, Hf.
Qed.

(** [filter] keeps every element when it keeps as many as there are. *)
Lemma Forall_filter_length {A} (P : A -> Prop) `{∀ x, Decision (P x)} (l : list A) :
  ¬ length (filter P l) < length l -> Forall P l.
Proof.
  induction l as [|x l IH]; intros Hlen; [constructor|].
  rewrite filter_cons in Hlen. pose proof (length_filter P l).
  case_decide; simpl in Hlen; [constructor; [done|apply IH; lia]|lia].
Qed.

(** C17 *)
(** Refinement of the catalogue: through [file_abs], [append_to_json_file]
    acts as [spec_add] (a second record for a key is shadowed by the
    first), [delete_by_key] as [spec_remove] on both of its branches, and
    [get_pool_and_container] as [spec_lookup], on every file, missing or
    not. *)
Theorem meta_refinement (file : MetaFile) (r : MetaRecord) (key : string) :
  file_abs (append_to_json_file r file) = spec_add r (file_abs file) ∧
  file_abs (delete_by_key key file).1 = spec_remove key (file_abs file) ∧
  (get_pool_and_container key file).1 = spec_lookup key (file_abs file).
Proof.
  destruct file as [data|]; cbn; split_and!.
  - by rewrite meta_abs_app.
  - unfold delete_by_key. case_decide as Hlt; cbn; [by rewrite meta_abs_filter|].
    rewrite delete_id; [done|]. apply meta_abs_None. by apply (Forall_filter_length (λ item, m_key item ≠ key)).
  - apply find_pool_container_abs.
  - unfold spec_add. cbn. by rewrite map_empty_union, insert_empty.
  - done.
  - done.
Qed.

End Meta.
