(* ===== verification/World.v ===== *)
(** * World: the state the handlers run on, and their primitive statements

    [World] gathers every piece of state the handlers of
    [src/auto_chunk.py] read or write:
    - [w_meta]: [metadata.json] ([None] when the file does not exist);
    - [w_daos]: the DAOS containers by (pool, container); a container holds
      the object "pydaos_kvstore_dict" ([Some d]) or not yet ([None]);
    - [w_files], [w_dirs]: the local regular files and directories;
    - [w_stdin]: the lines [input()] still has to read;
    - [w_out]: the lines printed so far, oldest first;
    - [w_clock]: the value [time.time()] returns next (a logical clock that
      advances by one at each reading; only differences are printed);
    - [w_discovery]: what the external
      [pool_test.list_containers_in_pool_with_max_targets()] returns.

    A handler is a computation of the exception-and-state monad [st World]
    of the prelude.  A dict handle is the (pool, container) pair of its
    container: every operation through it reads and writes [w_daos], so two
    handles on one container see each other's writes, as pydaos handles do.
    The file-system primitives raise what CPython raises: opening a
    directory raises [IsADirectoryError], creating a file in a missing
    directory raises [FileNotFoundError], [os.makedirs] over a regular file
    raises [FileExistsError].  No primitive reads more than one input line:
    each has a [nonincr stdin_len] lemma in the [pyauto] hints. *)

From stdpp Require Import base list strings gmap.
From Stdlib Require Import ZArith.
From S2P Require Import Prelude KeyFormat KVStore Metadata.
Import PyPath.

Section World.
Context `{DDictLaws D}.

Record World := mkWorld {
  w_meta : MetaFile;
  w_daos : gmap (string * string) (option D);
  w_files : gmap string bytes;
  w_dirs : gset string;
  w_stdin : list string;
  w_out : list Msg;
  w_clock : Z;
  w_discovery : string * list string;
}.

Definition set_meta (m : MetaFile) (w : World) : World :=
  mkWorld m (w_daos w) (w_files w) (w_dirs w) (w_stdin w) (w_out w) (w_clock w) (w_discovery w).
Definition set_daos (c : gmap (string * string) (option D)) (w : World) : World :=
  mkWorld (w_meta w) c (w_files w) (w_dirs w) (w_stdin w) (w_out w) (w_clock w) (w_discovery w).
Definition set_files (f : gmap string bytes) (w : World) : World :=
  mkWorld (w_meta w) (w_daos w) f (w_dirs w) (w_stdin w) (w_out w) (w_clock w) (w_discovery w).
Definition set_stdin (i : list string) (w : World) : World :=
  mkWorld (w_meta w) (w_daos w) (w_files w) (w_dirs w) i (w_out w) (w_clock w) (w_discovery w).
Definition set_out (o : list Msg) (w : World) : World :=
  mkWorld (w_meta w) (w_daos w) (w_files w) (w_dirs w) (w_stdin w) o (w_clock w) (w_discovery w).
Definition set_clock (t : Z) (w : World) : World :=
  mkWorld (w_meta w) (w_daos w) (w_files w) (w_dirs w) (w_stdin w) (w_out w) t (w_discovery w).
Definition set_dirs (ds : gset string) (w : World) : World :=
  mkWorld (w_meta w) (w_daos w) (w_files w) ds (w_stdin w) (w_out w) (w_clock w) (w_discovery w).

(** The number of lines [input()] has still to read. *)
Definition stdin_len (w : World) : nat := length (w_stdin w).

Local Notation M := (st World).

(** ** Console and clock *)

(** [input(prompt)]; the prompt is not modelled. *)
Definition input : M string := λ w,
  match w_stdin w with
  | [] => (w, inl EOFError)
  | line :: rest => (set_stdin rest w, inr line)
  end.

Definition print (m : Msg) : M unit := λ w, (set_out (w_out w ++ [m]) w, inr tt).

Definition time_time : M Z := λ w, (set_clock (w_clock w + 1)%Z w, inr (w_clock w)).

(** [pool, container = None] raises [TypeError]. *)
Definition unpack {A} (o : option A) : M A :=
  match o with Some a => ret a | None => raise TypeError end.

(** ** DAOS *)

Definition list_containers : M (string * list string) := λ w, (w, inr (w_discovery w)).

(** [DCont(pool, container, None)]: the handle of an existing container. *)
Definition dcont (pool cont : string) : M (string * string) := λ w,
  match w_daos w !! (pool, cont) with
  | Some _ => (w, inr (pool, cont))
  | None => (w, inl (DaosError pool cont))
  end.

(** [try: daos_cont.get("pydaos_kvstore_dict")
     except: daos_cont.dict("pydaos_kvstore_dict")]: open the object, or
    create it empty. *)
Definition get_dict (h : string * string) : M unit := λ w,
  match w_daos w !! h with
  | Some (Some _) => (w, inr tt)
  | Some None => (set_daos (<[h := Some dd_empty]> (w_daos w)) w, inr tt)
  | None => (w, inl (DaosError h.1 h.2))
  end.

(** The object behind a handle. *)
Definition cur_dict (w : World) (h : string * string) : D :=
  match w_daos w !! h with Some (Some d) => d | _ => dd_empty end.

Definition set_dict (h : string * string) (d : D) (w : World) : World :=
  set_daos (<[h := Some d]> (w_daos w)) w.

Definition d_len (h : string * string) : M nat := λ w, (w, inr (dd_len (cur_dict w h))).

Definition d_contains (h : string * string) (k : string) : M bool :=
  λ w, (w, inr (dd_contains (cur_dict w h) k)).

Definition d_keys (h : string * string) : M (list string) :=
  λ w, (w, inr (dd_keys (cur_dict w h))).

Definition d_bget (h : string * string) (ks : list (string * unit))
    : M (list (string * option bytes)) :=
  λ w, (w, inr (bget (cur_dict w h) ks)).

Definition d_bput (h : string * string) (es : list (string * bytes)) : M unit :=
  λ w, (set_dict h (bput (cur_dict w h) es) w, inr tt).

Definition d_pop (h : string * string) (k : string) : M bytes := λ w,
  match pop (cur_dict w h) k with
  | inl e => (w, inl e)
  | inr (v, d') => (set_dict h d' w, inr v)
  end.

(** ** Local files *)

(** [os.path.exists(p)] *)
Definition fs_exists (p : string) : M bool :=
  λ w, (w, inr (bool_decide (is_Some (w_files w !! p) ∨ p ∈ w_dirs w))).

(** What the file system reports as the size of a directory (ext4). *)
Definition dir_entry_size : Z := 4096.

(** [os.path.getsize(p)] *)
Definition fs_getsize (p : string) : M Z := λ w,
  match w_files w !! p with
  | Some v => (w, inr (Z.of_nat (length v)))
  | None => if bool_decide (p ∈ w_dirs w) then (w, inr dir_entry_size)
            else (w, inl (FileNotFoundError p))
  end.

(** [open(p, "rb")]: the unread bytes of the opened file. *)
Definition fs_open_read (p : string) : M bytes := λ w,
  match w_files w !! p with
  | Some v => (w, inr v)
  | None => if bool_decide (p ∈ w_dirs w) then (w, inl (IsADirectoryError p))
            else (w, inl (FileNotFoundError p))
  end.

(** [with open(p, "wb") as f: f.write(v)] *)
Definition fs_write (p : string) (v : bytes) : M unit := λ w,
  if bool_decide (p ∈ w_dirs w) then (w, inl (IsADirectoryError p))
  else if bool_decide (dirname p = "" ∨ dirname p ∈ w_dirs w)
  then (set_files (<[p := v]> (w_files w)) w, inr tt)
  else (w, inl (FileNotFoundError p)).

(** [os.makedirs(p, exist_ok=True)] for a path [p] without a slash: an
    existing directory is kept, a regular file raises [FileExistsError]. *)
Definition makedirs (p : string) : M unit := λ w,
  if bool_decide (p ∈ w_dirs w) then (w, inr tt)
  else if bool_decide (is_Some (w_files w !! p)) then (w, inl (FileExistsError p))
  else (set_dirs ({[p]} ∪ w_dirs w) w, inr tt).

(** ** The metadata file, through the [Meta] operations *)

Definition get_pool_and_container (key : string) : M (option (string * string)) := λ w,
  let '(r, ms) := Meta.get_pool_and_container key (w_meta w) in
  (set_out (w_out w ++ ms) w, inr r).

Definition delete_by_key (key : string) : M unit := λ w,
  let '(f, ms) := Meta.delete_by_key key (w_meta w) in
  (set_out (w_out w ++ ms) (set_meta f w), inr tt).

Definition append_to_json_file (r : MetaRecord) : M unit :=
  λ w, (set_meta (Meta.append_to_json_file r (w_meta w)) w, inr tt).

Definition print_keys : M unit :=
  λ w, (set_out (w_out w ++ Meta.print_keys (w_meta w)) w, inr tt).

(** ** [save_value_as_file] (lines 29-33) *)

(** [upload_dir] (line 16) *)
Definition upload_dir : string := "uploads".

Definition save_value_as_file (key : string) (value : bytes) : M unit :=
  let filename := path_join upload_dir (key +:+ ".dat") in
  (fs_write filename value ;; print (MsgSaved filename))%py.

(** [save_value_as_file] where the file can be created. *)
Definition save_path (key : string) : string := path_join upload_dir (key +:+ ".dat").

Definition can_create (w : World) (p : string) : Prop :=
  p ∉ w_dirs w ∧ (dirname p = "" ∨ dirname p ∈ w_dirs w).

(** No primitive statement reads more than one input line. *)
Ltac prim_nonincr :=
  intros w; unfold stdin_len;
  cbv beta iota zeta delta [ret raise input print time_time unpack list_containers dcont get_dict
    cur_dict set_dict d_len d_contains d_keys d_bget d_bput d_pop fs_exists fs_getsize
    fs_open_read fs_write makedirs get_pool_and_container delete_by_key append_to_json_file
    print_keys set_meta set_daos set_files set_stdin set_out set_clock set_dirs];
  repeat case_match; cbn;
  try match goal with H : w_stdin _ = _ |- _ => rewrite H end; cbn; lia.

Lemma input_nonincr : nonincr stdin_len input.
Proof. prim_nonincr. Qed.
Lemma print_nonincr m : nonincr stdin_len (print m).
Proof. prim_nonincr. Qed.
Lemma time_time_nonincr : nonincr stdin_len time_time.
Proof. prim_nonincr. Qed.
Lemma unpack_nonincr {A} (o : option A) : nonincr stdin_len (unpack o).
Proof. destruct o; prim_nonincr. Qed.
Lemma list_containers_nonincr : nonincr stdin_len list_containers.
Proof. prim_nonincr. Qed.
Lemma dcont_nonincr pool cont : nonincr stdin_len (dcont pool cont).
Proof. prim_nonincr. Qed.
Lemma get_dict_nonincr h : nonincr stdin_len (get_dict h).
Proof. prim_nonincr. Qed.
Lemma d_len_nonincr h : nonincr stdin_len (d_len h).
Proof. prim_nonincr. Qed.
Lemma d_contains_nonincr h k : nonincr stdin_len (d_contains h k).
Proof. prim_nonincr. Qed.
Lemma d_keys_nonincr h : nonincr stdin_len (d_keys h).
Proof. prim_nonincr. Qed.
Lemma d_bget_nonincr h ks : nonincr stdin_len (d_bget h ks).
Proof. prim_nonincr. Qed.
Lemma d_bput_nonincr h es : nonincr stdin_len (d_bput h es).
Proof. prim_nonincr. Qed.
Lemma d_pop_nonincr h k : nonincr stdin_len (d_pop h k).
Proof. prim_nonincr. Qed.
Lemma fs_exists_nonincr p : nonincr stdin_len (fs_exists p).
Proof. prim_nonincr. Qed.
Lemma fs_getsize_nonincr p : nonincr stdin_len (fs_getsize p).
Proof. prim_nonincr. Qed.
Lemma fs_open_read_nonincr p : nonincr stdin_len (fs_open_read p).
Proof. prim_nonincr. Qed.
Lemma fs_write_nonincr p v : nonincr stdin_len (fs_write p v).
Proof. prim_nonincr. Qed.
Lemma makedirs_nonincr p : nonincr stdin_len (makedirs p).
Proof. prim_nonincr. Qed.
Lemma get_pool_and_container_nonincr key : nonincr stdin_len (get_pool_and_container key).
Proof. prim_nonincr. Qed.
Lemma delete_by_key_nonincr key : nonincr stdin_len (delete_by_key key).
Proof. prim_nonincr. Qed.
Lemma append_to_json_file_nonincr r : nonincr stdin_len (append_to_json_file r).
Proof. prim_nonincr. Qed.
Lemma print_keys_nonincr : nonincr stdin_len print_keys.
Proof. prim_nonincr. Qed.

Lemma save_value_as_file_ok (w : World) (key : string) (v : bytes) :
  can_create w (save_path key) ->
  save_value_as_file key v w =
    (set_out (w_out w ++ [MsgSaved (save_path key)])
       (set_files (<[save_path key := v]> (w_files w)) w), inr tt).
Proof.
  intros [Hd Hc]. unfold save_value_as_file, fs_write, bind, print. fold (save_path key).
  rewrite bool_decide_false by done. rewrite bool_decide_true by done. done.
Qed.

(** A key without a slash is saved in [uploads]. *)
Lemma save_path_plain (key : string) :
  Forall (λ c, is_slash c = false) (String.list_ascii_of_string key) ->
  save_path key = upload_dir +:+ "/" +:+ key +:+ ".dat" ∧ dirname (save_path key) = upload_dir.
Proof.
  intros Hk. apply dirname_path_join; [done| | |].
  - destruct key as [|a key]; [done|]. apply Forall_cons in Hk as [Ha _].
    change (String a key +:+ ".dat") with (String a (key +:+ ".dat")).
    by rewrite py_startswith_slash.
  - rewrite ChunkKey.list_ascii_of_string_append. apply Forall_app. split; [done|].
    repeat constructor.
  - repeat constructor.
Qed.

Lemma set_dict_id (w : World) (h : string * string) (d : D) :
  w_daos w !! h = Some (Some d) -> set_dict h d w = w.
Proof. intros Hd. destruct w. unfold set_dict, set_daos. simpl in *. by rewrite insert_id. Qed.

Lemma set_dict_set_dict (w : World) (h : string * string) (d d' : D) :
  set_dict h d' (set_dict h d w) = set_dict h d' w.
Proof. unfold set_dict, set_daos. simpl. by rewrite insert_insert_eq. Qed.

End World.

Arguments World D : clear implicits.

#[export] Hint Resolve input_nonincr print_nonincr time_time_nonincr unpack_nonincr
  list_containers_nonincr dcont_nonincr get_dict_nonincr d_len_nonincr d_contains_nonincr
  d_keys_nonincr d_bget_nonincr d_bput_nonincr d_pop_nonincr fs_exists_nonincr
  fs_getsize_nonincr fs_open_read_nonincr fs_write_nonincr makedirs_nonincr
  get_pool_and_container_nonincr delete_by_key_nonincr append_to_json_file_nonincr
  print_keys_nonincr : pyauto.

(** Symbolic execution of a handler: unfold the monad and the primitive
    statements (not [save_value_as_file], which has its own lemma), and
    reduce the field accesses of the updated worlds. *)
Ltac st_run :=
  cbv beta iota zeta delta [bind ret raise py_try input print time_time unpack
    list_containers dcont get_dict cur_dict set_dict d_len d_contains d_keys d_bget d_bput
    d_pop fs_exists fs_getsize fs_open_read fs_write get_pool_and_container delete_by_key
    append_to_json_file print_keys makedirs set_meta set_daos set_files set_stdin set_out set_clock set_dirs];
  cbn [w_meta w_daos w_files w_dirs w_stdin w_out w_clock w_discovery fst snd].

(** Normal form of printed lines and clock differences. *)
Ltac world_norm := rewrite ?app_nil_r, <- ?app_assoc, ?Z.add_simpl_l; cbn [app].
