(* ===== verification/Handlers.v ===== *)
(** * Handlers: the transfer orchestrator

    The command handlers of [src/auto_chunk.py], statement by statement, in
    the monad [st (World D)]:
    - [get_daos_container] (lines 8-15): the first discovered container that
      opens; [None] when none does;
    - [upload_file] (lines 185-230): the metadata record is appended before
      the file is read; the chunks are written by one [bput];
    - [read_key] (lines 81-115): the chunk keys [0 .. len(daos_dict)-1] are
      fetched by one [bget] and the present ones concatenated;
    - [delete_key1] (lines 116-141, command [p]): the records of the key are
      dropped, then the chunk keys [0 .. len(daos_dict)-1] are popped in
      order until one is missing;
    - [delete_key] (lines 147-168, not bound to any command): pops the key
      itself and every key that starts with [key + "chunk"].
    The handlers are generic in the dict implementation [D]; the
    theorems about them use only the [DDictLaws] of [KVStore]. *)

From stdpp Require Import base list strings gmap.
From Stdlib Require Import ZArith.
From S2P Require Import Prelude KeyFormat ChunkCodec KVStore Metadata World.
Import ChunkKey PyPath Split Join.

Local Open Scope py_scope.

Section Handlers.
Context `{DDictLaws D}.
Local Notation M := (st (World D)).

(** Lines 10-15: try each container in turn. *)
Fixpoint try_containers (pool : string) (containers : list string)
    : M (option (string * string)) :=
  match containers with
  | [] => ret None
  | container :: rest =>
      py_try (h <- dcont pool container ;; ret (Some h))
             (λ e, print (MsgContainerError container e) ;; try_containers pool rest)
  end.

(** Lines 8-15 *)
Definition get_daos_container : M (option (string * string)) :=
  r <- list_containers ;; try_containers r.1 r.2.

(** Lines 200-219 inside the [try]: the record, then the chunks.  The
    read loop runs with [upload_fuel contents] rounds, which
    [upload_loop_spec] shows always suffice, so its out-of-fuel value is
    never used. *)
Definition upload_body (chunk_size : Z) (h : string * string) (key file_path : string)
    : M unit :=
  size <- fs_getsize file_path ;;
  upload_time <- time_time ;;
  append_to_json_file (mkMeta h.1 h.2 key (basename file_path) size upload_time) ;;
  contents <- fs_open_read file_path ;;
  let res := default ([], 0) (upload_loop (upload_fuel contents) chunk_size key contents 0 []) in
  bput_start_time <- time_time ;;
  d_bput h res.1 ;;
  bput_end_time <- time_time ;;
  print (MsgUploaded res.2 (bput_end_time - bput_start_time)).

(** Lines 185-230; [chunk_size] is the global [CHUNK_SIZE]. *)
Definition upload_file (chunk_size : Z) : M unit :=
  r <- get_daos_container ;;
  h <- unpack r ;;
  get_dict h ;;
  key <- input ;;
  file_path <- input ;;
  ex <- fs_exists file_path ;;
  if ex then py_try (upload_body chunk_size h key file_path) (λ e, print (MsgUploadError e))
  else print MsgFileNotFound.

(** Lines 83-113 inside the [try]. *)
Definition read_body : M unit :=
  key <- input ;;
  r <- get_pool_and_container key ;;
  pc <- unpack r ;;
  h <- dcont pc.1 pc.2 ;;
  get_dict h ;;
  start_time <- time_time ;;
  n <- d_len h ;;
  chunks <- d_bget h (chunk_keys key n) ;;
  let res := assemble chunks [] 0 in
  end_time <- time_time ;;
  match res.1 with
  | [] => print MsgKeyNotFound
  | assembled_data =>
      save_value_as_file key assembled_data ;;
      print (MsgReadOk res.2 (end_time - start_time))
  end.

(** Lines 81-115 *)
Definition read_key : M unit := py_try read_body (λ e, print (MsgReadError e)).

(** Lines 133-134: [for chunk_key in chunk_keys: daos_dict.pop(chunk_key)] *)
Fixpoint pop_all (h : string * string) (ks : list (string * unit)) : M unit :=
  match ks with
  | [] => ret tt
  | (k, _) :: rest => d_pop h k ;; pop_all h rest
  end.

(** Lines 118-138 inside the [try]. *)
Definition delete_body : M unit :=
  key <- input ;;
  r <- get_pool_and_container key ;;
  pc <- unpack r ;;
  h <- dcont pc.1 pc.2 ;;
  get_dict h ;;
  delete_by_key key ;;
  n <- d_len h ;;
  let ks := chunk_keys key n in
  if decide (ks ≠ []) then pop_all h ks ;; print MsgKeyDeleted
  else print MsgKeyNotDeleted.

(** Lines 116-141 *)
Definition delete_key1 : M unit := py_try delete_body (λ e, print (MsgDeleteError e)).

(** Lines 162-164 over the snapshot [list(daos_dict.keys())]. *)
Fixpoint pop_matching (h : string * string) (prefix : string) (ks : list string) : M unit :=
  match ks with
  | [] => ret tt
  | k :: rest =>
      (if py_startswith k prefix then d_pop h k ;; ret tt else ret tt) ;;
      pop_matching h prefix rest
  end.

(** Lines 147-168: no [try], an exception leaves the handler. *)
Definition delete_key : M unit :=
  key <- input ;;
  r <- get_pool_and_container key ;;
  pc <- unpack r ;;
  h <- dcont pc.1 pc.2 ;;
  get_dict h ;;
  present <- d_contains h key ;;
  if present then
    d_pop h key ;;
    ks <- d_keys h ;;
    pop_matching h (key +:+ "chunk") ks ;;
    print (MsgChunksDeleted key)
  else print MsgNoKeyFound.

End Handlers.
