(* ===== verification/Transfer.v ===== *)
(** * Transfer: what the read and delete handlers do

    Functional specifications of [read_key] and [delete_key1] on every
    branch, proved by symbolic execution ([st_run]) from the [DDictLaws]
    and the [ChunkSet] lemmas:
    - [read_key_present]: on any container, the chunks of the key present
      below [len(daos_dict)] ([present_chunks]) are concatenated and saved;
    - [read_key_found]: the chunks of the key are fetched, concatenated and
      saved to [uploads/<key>.dat];
    - [read_key_no_chunks]: a record whose container holds no chunk of the
      key prints "Key not found." (an orphan record, or an empty upload);
    - [read_key_no_record]: without a record the handler stops at the
      unpacking of [None] ([TypeError]) and touches neither the store nor
      the files;
    - [pop_all_chunks]: the pop loop of [delete_key1] removes the chunks in
      index order and raises [KeyError] at the first index past them;
    - [delete_key1_spec]: the records of the key are dropped, every chunk of
      the key is removed and no other entry, and the message printed depends
      on whether the container holds other entries;
    - [remove_chunks_holds_nil], [remove_chunks_other]: what removing the
      chunk keys leaves of the container;
    - [pop_matching_spec], [delete_key_present]: the prefix loop of the
      unused [delete_key]. *)

From stdpp Require Import base list strings gmap.
From Stdlib Require Import ZArith.
From S2P Require Import Prelude KeyFormat ChunkCodec KVStore ChunkSet Metadata World Handlers.
Import ChunkKey PyPath Split Join.

Local Open Scope py_scope.

Section Transfer.
Context `{DDictLaws D}.

(** What the read loop of [read_key] assembles from [d]: the chunks of
    [key] present at the indices below [len(d)], in index order. *)
Definition present_chunks (d : D) (key : string) : list bytes :=
  omap (λ i, dd_get d (chunk_key key i)) (seq 0 (dd_len d)).

(** The dict without the given keys. *)
Definition remove_keys (d : D) (ks : list string) : D := foldl (λ d k, dd_remove k d) d ks.

(** The line [delete_key1] prints after the records are dropped, for a
    key with [n] chunks in a dict of [len] entries. *)
Definition delete_outcome (key : string) (n len : nat) : Msg :=
  if decide (len = 0) then MsgKeyNotDeleted
  else if decide (n < len) then MsgDeleteError (KeyError (chunk_key key n))
  else MsgKeyDeleted.


(** ** Reading *)

Lemma read_key_found (w : World D) (key : string) (rest : list string)
    (data : list MetaRecord) (pc : string * string) (d : D) (cs : list bytes) :
  w_stdin w = key :: rest ->
  w_meta w = Some data -> Meta.find_pool_container key data = Some pc ->
  w_daos w !! pc = Some (Some d) ->
  holds_chunks d key cs -> concat cs ≠ [] -> can_create w (save_path key) ->
  read_key w =
    (set_out (w_out w ++ [MsgSaved (save_path key); MsgReadOk (length cs) 1])
       (set_files (<[save_path key := concat cs]> (w_files w))
          (set_clock (w_clock w + 1 + 1) (set_stdin rest w))), inr tt).
Proof.
  intros Hin Hmeta Hfind Hd Hcs Hne Hcr.
  unfold read_key, read_body. st_run. rewrite Hin. st_run. rewrite Hmeta. cbn. rewrite Hfind.
  destruct pc as [p c]. st_run. rewrite Hd. st_run. rewrite Hd. st_run. rewrite Hd.
  rewrite (assemble_holds d key cs (dd_len d) Hcs (holds_chunks_len _ _ _ Hcs)). cbn.
  destruct (concat cs) as [|b l] eqn:Hc; [done|].
  rewrite save_value_as_file_ok by done. st_run. by world_norm.
Qed.

(** [read_key] on any container: it assembles [present_chunks]. *)
Lemma read_key_present (w : World D) (key : string) (rest : list string)
    (data : list MetaRecord) (pc : string * string) (d : D) :
  w_stdin w = key :: rest ->
  w_meta w = Some data -> Meta.find_pool_container key data = Some pc ->
  w_daos w !! pc = Some (Some d) -> can_create w (save_path key) ->
  read_key w =
    match concat (present_chunks d key) with
    | [] => (set_out (w_out w ++ [MsgKeyNotFound])
               (set_clock (w_clock w + 1 + 1) (set_stdin rest w)), inr tt)
    | _ => (set_out (w_out w ++ [MsgSaved (save_path key);
                                 MsgReadOk (length (present_chunks d key)) 1])
              (set_files (<[save_path key := concat (present_chunks d key)]> (w_files w))
                 (set_clock (w_clock w + 1 + 1) (set_stdin rest w))), inr tt)
    end.
Proof.
  intros Hin Hmeta Hfind Hd Hcr.
  unfold read_key, read_body. st_run. rewrite Hin. st_run. rewrite Hmeta. cbn. rewrite Hfind.
  destruct pc as [p c]. st_run. rewrite Hd. st_run. rewrite Hd. st_run. rewrite Hd.
  rewrite bget_chunk_keys_get, assemble_acc. unfold join_spec, present_chunks.
  rewrite omap_fmap. cbn. destruct (concat _) as [|b l] eqn:Hc; [by world_norm|].
  rewrite <- Hc, save_value_as_file_ok by done. st_run. by world_norm.
Qed.

Lemma read_key_no_chunks (w : World D) (key : string) (rest : list string)
    (data : list MetaRecord) (pc : string * string) (d : D) :
  w_stdin w = key :: rest ->
  w_meta w = Some data -> Meta.find_pool_container key data = Some pc ->
  w_daos w !! pc = Some (Some d) -> holds_chunks d key [] ->
  read_key w =
    (set_out (w_out w ++ [MsgKeyNotFound])
       (set_clock (w_clock w + 1 + 1) (set_stdin rest w)), inr tt).
Proof.
  intros Hin Hmeta Hfind Hd Hcs.
  unfold read_key, read_body. st_run. rewrite Hin. st_run. rewrite Hmeta. cbn. rewrite Hfind.
  destruct pc as [p c]. st_run. rewrite Hd. st_run. rewrite Hd. st_run. rewrite Hd.
  rewrite (assemble_holds d key [] (dd_len d) Hcs) by (simpl; lia). cbn. by world_norm.
Qed.

Lemma read_key_no_record (w : World D) (key : string) (rest : list string) (ms : list Msg) :
  w_stdin w = key :: rest -> Meta.get_pool_and_container key (w_meta w) = (None, ms) ->
  read_key w = (set_out (w_out w ++ ms ++ [MsgReadError TypeError]) (set_stdin rest w), inr tt).
Proof.
  intros Hin Hget. unfold read_key, read_body. st_run. rewrite Hin. st_run.
  rewrite Hget. st_run. by world_norm.
Qed.

(** ** Deleting *)

Lemma remove_keys_get (d : D) (ks : list string) (k : string) :
  dd_get (remove_keys d ks) k = if decide (k ∈ ks) then None else dd_get d k.
Proof.
  unfold remove_keys. revert d. induction ks as [|k' ks IH]; intros d; cbn [foldl].
  - case_decide; set_solver.
  - rewrite IH, dd_get_remove. repeat case_decide; set_solver.
Qed.

Lemma remove_chunks_holds_nil (d : D) (key : string) (cs : list bytes) :
  holds_chunks d key cs ->
  holds_chunks (remove_keys d (chunk_key key <$> seq 0 (length cs))) key [].
Proof.
  intros Hd i. rewrite remove_keys_get. case_decide as Hi; [done|].
  rewrite Hd, lookup_nil. apply lookup_ge_None_2. destruct (decide (i < length cs)); [|lia].
  exfalso. apply Hi, list_elem_of_fmap. exists i. split; [done|]. apply elem_of_seq. lia.
Qed.

Lemma remove_chunks_other (d : D) (key : string) (n : nat) (k : string) :
  (∀ i, k ≠ chunk_key key i) -> dd_get (remove_keys d (chunk_key key <$> seq 0 n)) k = dd_get d k.
Proof.
  intros Hk. rewrite remove_keys_get. case_decide as Hin; [|done].
  apply list_elem_of_fmap in Hin as (i & -> & _). by destruct (Hk i).
Qed.

(** [pop_all] from index [j]: the chunks [j .. length cs - 1] are popped
    in order, and a [KeyError] stops the loop at the first index past them. *)
Lemma pop_all_chunks (w : World D) (h : string * string) (d : D) (key : string)
    (cs : list bytes) (j m : nat) :
  w_daos w !! h = Some (Some d) ->
  (∀ i, j <= i -> dd_get d (chunk_key key i) = cs !! i) ->
  j <= length cs <= j + m ->
  pop_all h ((λ i, (chunk_key key i, tt)) <$> seq j m) w =
    (set_dict h (remove_keys d (chunk_key key <$> seq j (length cs - j))) w,
     if decide (length cs < j + m) then inl (KeyError (chunk_key key (length cs)))
     else inr tt).
Proof.
  revert w d j. induction m as [|m IH]; intros w d j Hd Hcs Hj.
  - replace (length cs - j) with 0 by lia. simpl.
    rewrite decide_False by lia. by rewrite set_dict_id.
  - simpl. unfold bind at 1, d_pop, cur_dict. rewrite Hd.
    destruct (decide (j = length cs)) as [->|Hlt].
    + rewrite pop_missing by (rewrite Hcs by lia; apply lookup_ge_None; lia).
      replace (length cs - length cs) with 0 by lia. simpl.
      rewrite decide_True by lia. by rewrite set_dict_id.
    + destruct (lookup_lt_is_Some_2 cs j) as [c Hc]; [lia|].
      rewrite (pop_ok _ _ c) by (rewrite Hcs; [done|lia]).
      rewrite IH with (d := dd_remove (chunk_key key j) d).
      * replace (length cs - j) with (S (length cs - S j)) by lia.
        rewrite set_dict_set_dict. repeat f_equal. apply decide_ext. lia.
      * unfold set_dict, set_daos. simpl. by rewrite lookup_insert_eq.
      * intros i Hi. rewrite dd_get_remove, decide_False, Hcs by (try intros [_ ?]%chunk_key_inj; lia).
        done.
      * lia.
Qed.

Lemma delete_key1_spec (w : World D) (key : string) (rest : list string)
    (data : list MetaRecord) (pc : string * string) (d : D) (cs : list bytes) :
  w_stdin w = key :: rest ->
  w_meta w = Some data -> Meta.find_pool_container key data = Some pc ->
  w_daos w !! pc = Some (Some d) -> holds_chunks d key cs ->
  delete_key1 w =
    (set_out (w_out w ++ [MsgAllDeleted key; delete_outcome key (length cs) (dd_len d)])
       (set_dict pc (remove_keys d (chunk_key key <$> seq 0 (length cs)))
          (set_meta (Some (filter (λ item, m_key item ≠ key) data)) (set_stdin rest w))),
     inr tt).
Proof.
  intros Hin Hmeta Hfind Hd Hcs. pose proof (holds_chunks_len _ _ _ Hcs) as Hlen.
  unfold delete_key1, delete_body. st_run. rewrite Hin. st_run. rewrite Hmeta. cbn.
  rewrite Hfind. destruct pc as [p c]. st_run. rewrite Hd. st_run. rewrite Hd. st_run.
  rewrite (Meta.delete_by_key_found _ _ (p, c) Hfind). st_run. rewrite Hd.
  rewrite chunk_keys_spec. unfold delete_outcome.
  destruct (decide (dd_len d = 0)) as [Hz|Hz].
  - rewrite Hz. replace (length cs) with 0 by lia. cbn. rewrite decide_False by (intros Hne; by apply Hne).
    st_run. rewrite (insert_id (w_daos w)) by done. by world_norm.
  - rewrite decide_True by (destruct (dd_len d); [lia|done]). st_run.
    rewrite (pop_all_chunks _ _ d key cs 0 (dd_len d)); [|by cbn; rewrite Hd|
      intros i _; apply Hcs|lia].
    destruct (decide (length cs < 0 + dd_len d)) as [Hlt|Hge]; st_run.
    + rewrite Nat.sub_0_r, (decide_True (P := length cs < dd_len d)) by lia. by world_norm.
    + rewrite Nat.sub_0_r, (decide_False (P := length cs < dd_len d)) by lia. by world_norm.
Qed.

(** The loop of [delete_key] over a snapshot of the keys pops those with
    the prefix. *)
Lemma pop_matching_spec (w : World D) (h : string * string) (d : D) (prefix : string)
    (ks : list string) :
  w_daos w !! h = Some (Some d) -> NoDup ks -> (∀ k, k ∈ ks -> is_Some (dd_get d k)) ->
  pop_matching h prefix ks w =
    (set_dict h (remove_keys d (filter (λ k, py_startswith k prefix = true) ks)) w, inr tt).
Proof.
  revert w d. induction ks as [|k ks IH]; intros w d Hd Hnd Hks.
  - cbn. by rewrite set_dict_id.
  - apply NoDup_cons in Hnd as [Hk Hnd]. rewrite filter_cons. cbn [pop_matching].
    destruct (py_startswith k prefix) eqn:Hp; unfold bind at 1.
    + destruct (Hks k ltac:(set_solver)) as [v Hv].
      unfold bind, d_pop, cur_dict. rewrite Hd, (pop_ok _ _ v Hv). cbn [ret].
      rewrite (IH _ (dd_remove k d)); [rewrite decide_True by done; by rewrite set_dict_set_dict| |done|].
      * unfold set_dict, set_daos. cbn. by rewrite lookup_insert_eq.
      * intros k' Hk'. rewrite dd_get_remove, decide_False by set_solver. apply Hks. set_solver.
    + cbn [ret]. rewrite (IH _ d); [by rewrite decide_False| done | done |]. intros k' ?. apply Hks. set_solver.
Qed.

Lemma delete_key_present (w : World D) (key : string) (rest : list string)
    (data : list MetaRecord) (pc : string * string) (d : D) (v : bytes) :
  w_stdin w = key :: rest ->
  w_meta w = Some data -> Meta.find_pool_container key data = Some pc ->
  w_daos w !! pc = Some (Some d) -> dd_get d key = Some v ->
  delete_key w =
    (set_out (w_out w ++ [MsgChunksDeleted key])
       (set_dict pc (remove_keys (dd_remove key d)
                       (filter (λ k, py_startswith k (key +:+ "chunk") = true)
                          (dd_keys (dd_remove key d))))
          (set_stdin rest w)), inr tt).
Proof.
  intros Hin Hmeta Hfind Hd Hv. unfold delete_key. st_run. rewrite Hin. st_run. rewrite Hmeta.
  cbn. rewrite Hfind. destruct pc as [p c]. st_run. rewrite Hd. st_run. rewrite Hd. st_run.
  rewrite Hd. unfold dd_contains. rewrite bool_decide_true by (by eexists). st_run. rewrite Hd.
  rewrite (pop_ok _ _ v Hv). st_run. rewrite lookup_insert_eq.
  rewrite (pop_matching_spec _ _ (dd_remove key d)); [|cbn; by rewrite lookup_insert_eq
    |apply dd_keys_nodup|intros k; apply dd_keys_spec].
  st_run. rewrite insert_insert_eq. by world_norm.
Qed.

End Transfer.
