(* ===== verification/Upload.v ===== *)
(** * Upload: what [upload_file] does

    - [append_fresh_found]: after an append under a key with no record,
      the record found is the appended one;
    - [try_containers_open], [try_containers_missing], [try_containers_none]:
      the discovery loop of [get_daos_container] stops at the first
      container that opens, prints an error for each one before it, and
      returns [None] when none opens;
    - [upload_file_ok]: on a readable file the handler appends the record
      (before reading the file), writes the chunk entries of [chunks_of] in
      one [bput] and prints their number;
    - [upload_file_unreadable]: when the path names a directory, the record
      is appended but no chunk is written: the orphan record of the spec. *)

From stdpp Require Import base list strings gmap.
From Stdlib Require Import ZArith.
From S2P Require Import Prelude KeyFormat ChunkCodec KVStore ChunkSet Metadata World Handlers.
Import ChunkKey PyPath Split Join.

Local Open Scope py_scope.

Section Upload.
Context `{DDictLaws D}.

(** The object of a container, created empty when missing. *)
Definition dict_or_empty (od : option D) : D := match od with Some d => d | None => dd_empty end.

(** The record [upload_file] appends (lines 202-209). *)
Definition upload_record (pool c key path : string) (data : bytes) (t : Z) : MetaRecord :=
  mkMeta pool c key (basename path) (Z.of_nat (length data)) t.

(** After an append under a key with no record, the record found for the
    key is the appended one. *)
Lemma append_fresh_found (m : MetaFile) (r : MetaRecord) :
  (Meta.get_pool_and_container (m_key r) m).1 = None ->
  Meta.append_to_json_file r m = Some (default [] m ++ [r]) ∧
  Meta.find_pool_container (m_key r) (default [] m ++ [r]) = Some (Meta.location r).
Proof.
  intros Hnone. split; [by destruct m|]. rewrite Meta.find_pool_container_app.
  destruct m as [l|]; cbn in Hnone |- *; [rewrite Hnone|]; by rewrite decide_True.
Qed.

Lemma try_containers_open (w : World D) (pool c : string) (rest : list string) (od : option D) :
  w_daos w !! (pool, c) = Some od ->
  try_containers pool (c :: rest) w = (w, inr (Some (pool, c))).
Proof. intros Hc. simpl. st_run. by rewrite Hc. Qed.

Lemma try_containers_missing (w : World D) (pool c : string) (rest : list string) :
  w_daos w !! (pool, c) = None ->
  try_containers pool (c :: rest) w =
    try_containers pool rest (set_out (w_out w ++ [MsgContainerError c (DaosError pool c)]) w).
Proof. intros Hc. simpl. st_run. by rewrite Hc. Qed.

(** No container opens: an error line for each, and [None]. *)
Lemma try_containers_none (w : World D) (pool : string) (cs : list string) :
  Forall (λ c, w_daos w !! (pool, c) = None) cs ->
  try_containers pool cs w =
    (set_out (w_out w ++ ((λ c, MsgContainerError c (DaosError pool c)) <$> cs)) w, inr None).
Proof.
  revert w. induction cs as [|c cs IH]; intros w Hcs.
  - cbn. destruct w. unfold set_out. cbn. by rewrite app_nil_r.
  - apply Forall_cons in Hcs as [Hc Hcs]. rewrite try_containers_missing by done.
    rewrite IH by done. cbn. by rewrite <- app_assoc.
Qed.

Lemma upload_file_ok (w : World D) (chunk_size : Z) (pool c : string) (cs' : list string)
    (od : option D) (key path : string) (rest : list string) (data : bytes) :
  w_discovery w = (pool, c :: cs') -> w_daos w !! (pool, c) = Some od ->
  w_stdin w = key :: path :: rest -> w_files w !! path = Some data ->
  upload_file chunk_size w =
    (set_out (w_out w ++ [MsgUploaded (length (chunks_of chunk_size data)) 1])
       (set_dict (pool, c)
          (bput (dict_or_empty od) (chunk_entries key (chunks_of chunk_size data)))
          (set_meta (Meta.append_to_json_file
                       (upload_record pool c key path data (w_clock w)) (w_meta w))
             (set_clock (w_clock w + 1 + 1 + 1) (set_stdin rest w)))), inr tt).
Proof.
  intros Hdisc Hc Hin Hf.
  unfold upload_file, get_daos_container. st_run. rewrite Hdisc. cbn [fst snd].
  rewrite (try_containers_open _ _ _ _ od Hc). st_run. rewrite Hc.
  destruct od as [d|]; st_run; rewrite Hin; st_run; rewrite Hf; rewrite bool_decide_true by eauto;
    unfold upload_body; st_run; rewrite Hf; st_run; rewrite Hf; st_run;
    rewrite upload_loop_spec by done; cbn [default fst snd]; rewrite ?Hc, ?lookup_insert_eq;
    st_run; rewrite ?insert_insert_eq, Hdisc; unfold upload_record; by world_norm.
Qed.

(** [open(path, "rb")] fails on a directory after the record is written:
    the metadata names a key that has no chunk. *)
Lemma upload_file_unreadable (w : World D) (chunk_size : Z) (pool c : string)
    (cs' : list string) (d : D) (key path : string) (rest : list string) :
  w_discovery w = (pool, c :: cs') -> w_daos w !! (pool, c) = Some (Some d) ->
  w_stdin w = key :: path :: rest -> w_files w !! path = None -> path ∈ w_dirs w ->
  upload_file chunk_size w =
    (set_out (w_out w ++ [MsgUploadError (IsADirectoryError path)])
       (set_meta (Meta.append_to_json_file
                    (mkMeta pool c key (basename path) dir_entry_size (w_clock w)) (w_meta w))
          (set_clock (w_clock w + 1) (set_stdin rest w))), inr tt).
Proof.
  intros Hdisc Hc Hin Hf Hdir.
  unfold upload_file, get_daos_container. st_run. rewrite Hdisc. cbn [fst snd].
  rewrite (try_containers_open _ _ _ _ (Some d) Hc). st_run. rewrite Hc. st_run. rewrite Hin.
  st_run. rewrite Hf, bool_decide_true by auto. unfold upload_body. st_run. rewrite Hf.
  rewrite bool_decide_true by done. st_run. rewrite Hf, bool_decide_true by done. st_run.
  rewrite Hdisc. by world_norm.
Qed.

End Upload.
