(* ===== verification/EndToEnd.v ===== *)
(** * EndToEnd: the handlers in sequence

    Theorems about handlers and runs of several handlers, stated for any
    dict implementation that satisfies [DDictLaws], each with a witness
    that runs it on a concrete world over [gmap string bytes] ([doc1_world]
    is the spec's scenario, [stored_world] the state after it):
    - [upload_then_read]: a file uploaded under a fresh key and read back
      is saved byte for byte in [uploads/<key>.dat];
    - [read_without_record], [delete_then_read], [delete_key1_removes_chunks],
      [delete_key1_reports_error]: the read and delete paths, with the
      [TypeError] and [KeyError] the code raises;
    - [reupload_reads_stale_tail], [upload_zero_chunk_size],
      [upload_directory_orphan], [upload_no_container]: what an upload
      leaves behind on a second upload, a chunk size of 0, a directory, and
      a pool without container;
    - [upload_preserves_other_chunks]: the chunks of other keys survive an
      upload;
    - [delete_key_removes_prefixed], [delete_key_misses_uploaded_key]: the
      unused [delete_key] handler. *)

From stdpp Require Import base list strings gmap.
From Stdlib Require Import ZArith.
From S2P Require Import Prelude KeyFormat ChunkCodec KVStore ChunkSet Metadata World.
From S2P Require Import Handlers Transfer Upload.
Import ChunkKey PyPath Split Join.

Local Open Scope py_scope.

(** Concrete worlds for the witnesses. *)
Definition bytes_of (s : string) : bytes := String.list_byte_of_string s.

(** The spec's scenario: one container "cont1" in pool "pool1", a 5-byte
    file, a chunk size of 2 bytes. *)
Definition doc1_world (stdin : list string) : World (gmap string bytes) :=
  mkWorld None {[("pool1", "cont1") := None]} {["/data/f.bin" := bytes_of "ABCDE"]}
    {["uploads"]} stdin [] 100 ("pool1", ["cont1"]).

(** The same container after the upload of [doc1]: its record, its three
    chunks, and the entries [extra] of other keys. *)
Definition doc1_record : MetaRecord := mkMeta "pool1" "cont1" "doc1" "f.bin" 5 100.

Definition doc1_chunks : list bytes := [bytes_of "AB"; bytes_of "CD"; bytes_of "E"].

Definition doc1_dict (extra : gmap string bytes) : gmap string bytes :=
  {["doc1chunk0" := bytes_of "AB"; "doc1chunk1" := bytes_of "CD"; "doc1chunk2" := bytes_of "E"]}
  ∪ extra.

Definition stored_world (extra : gmap string bytes) (stdin : list string)
    : World (gmap string bytes) :=
  mkWorld (Some [doc1_record]) {[("pool1", "cont1") := Some (doc1_dict extra)]}
    {["/data/f.bin" := bytes_of "ABCDE"; "/data/g.bin" := bytes_of "XY"]}
    {["uploads"; "/data"]} stdin [] 200 ("pool1", ["cont1"]).

(** A pool where discovery lists two containers that do not exist. *)
Definition lost_world : World (gmap string bytes) :=
  mkWorld None {[("pool1", "cont1") := None]} ∅ ∅ ["doc1"; "/data/f.bin"] [] 0
    ("pool1", ["cont2"; "cont3"]).

(** A container where the bare key "a" is present beside the chunks of
    "a" and those of the key "achunk1". *)
Definition prefix_dict : gmap string bytes :=
  {["a" := bytes_of "0"; "achunk0" := bytes_of "1"; "achunk1chunk0" := bytes_of "2";
    "b" := bytes_of "3"]}.

Definition prefix_world : World (gmap string bytes) :=
  mkWorld (Some [mkMeta "pool1" "cont1" "a" "a.bin" 1 0])
    {[("pool1", "cont1") := Some prefix_dict]} ∅ ∅ ["a"] [] 0 ("pool1", ["cont1"]).

(** A container where "doc1chunk1" is missing: [len] is 2, so the read
    loop looks at the indices 0 and 1 only. *)
Definition gap_world : World (gmap string bytes) :=
  mkWorld (Some [doc1_record])
    {[("pool1", "cont1") := Some {["doc1chunk0" := bytes_of "AB"; "doc1chunk2" := bytes_of "E"]}]}
    ∅ {["uploads"]} ["doc1"] [] 0 ("pool1", ["cont1"]).

(** Discharge a hypothesis of a theorem at a concrete world. *)
Ltac witness_hyp :=
  first [ reflexivity | discriminate | lia
        | (apply (bool_decide_unpack _); vm_compute; reflexivity)
        | (intros ?; reflexivity)
        | solve [repeat constructor]
        | (split; apply (bool_decide_unpack _); vm_compute; reflexivity) ].

Section EndToEnd.
Context `{DDictLaws D}.


(** C2 *)
(** Reading a key that has no metadata record: [get_pool_and_container]
    returns [None], the unpacking [pool, container = None] raises
    [TypeError], and the handler catches it and prints "Error reading key".
    The store, the local files and the metadata are left as they were and
    only the key's input line is consumed. *)
Theorem read_without_record (w : World D) (key : string) (rest : list string) :
  w_stdin w = key :: rest -> (Meta.get_pool_and_container key (w_meta w)).1 = None ->
  ∃ w', read_key w = (w', inr tt) ∧ w_daos w' = w_daos w ∧ w_files w' = w_files w ∧
    w_meta w' = w_meta w ∧ w_stdin w' = rest ∧
    last (w_out w') = Some (MsgReadError TypeError).
Proof.
  intros Hin Hnone. destruct (Meta.get_pool_and_container key (w_meta w)) as [r ms] eqn:Hg.
  cbn in Hnone. subst r. rewrite (read_key_no_record w key rest ms) by done.
  eexists; split; [reflexivity|]. cbn. by rewrite app_assoc, last_snoc.
Qed.

(** C3 *)
(** Delete then read: after [delete_key1] of a key whose record names a
    container that holds its chunks, the container holds no chunk of the
    key, the record is gone, and a [read_key] of the key fails with
    [TypeError] without writing a file. *)
Theorem delete_then_read (w : World D) (key : string) (rest : list string)
    (data : list MetaRecord) (pc : string * string) (d : D) (cs : list bytes) :
  w_stdin w = key :: key :: rest ->
  w_meta w = Some data -> Meta.find_pool_container key data = Some pc ->
  w_daos w !! pc = Some (Some d) -> holds_chunks d key cs ->
  ∃ w' d', (delete_key1 ;; read_key) w = (w', inr tt) ∧
    w_daos w' !! pc = Some (Some d') ∧ holds_chunks d' key [] ∧
    (Meta.get_pool_and_container key (w_meta w')).1 = None ∧
    w_files w' = w_files w ∧ last (w_out w') = Some (MsgReadError TypeError).
Proof.
  intros Hin Hmeta Hfind Hd Hcs. unfold bind at 1.
  rewrite (delete_key1_spec w key (key :: rest) data pc d cs) by done.
  rewrite (read_key_no_record _ key rest []); [|done|].
  2:{ unfold set_out, set_dict, set_daos, set_meta, set_stdin. cbn [w_meta].
      cbn [Meta.get_pool_and_container]. by rewrite Meta.find_pool_container_filter. }
  do 2 eexists; split; [reflexivity|]. cbn [w_daos w_meta w_files w_out set_out set_dict
    set_daos set_meta set_stdin Meta.get_pool_and_container]. rewrite lookup_insert_eq.
  split; [done|]. split; [by apply remove_chunks_holds_nil|].
  rewrite Meta.find_pool_container_filter. split; [done|]. split; [done|].
  by rewrite app_nil_l, last_snoc.
Qed.

(** C4 *)
(** What [delete_key1] removes: every record of the key, every chunk of
    the key in its container, and nothing else of that container; the rest
    of the store is untouched. *)
Theorem delete_key1_removes_chunks (w : World D) (key : string) (rest : list string)
    (data : list MetaRecord) (pc : string * string) (d : D) (cs : list bytes) :
  w_stdin w = key :: rest ->
  w_meta w = Some data -> Meta.find_pool_container key data = Some pc ->
  w_daos w !! pc = Some (Some d) -> holds_chunks d key cs ->
  ∃ w' d', delete_key1 w = (w', inr tt) ∧
    w_daos w' = <[pc := Some d']> (w_daos w) ∧ holds_chunks d' key [] ∧
    (∀ k, (∀ i, k ≠ chunk_key key i) -> dd_get d' k = dd_get d k) ∧
    w_meta w' = Some (filter (λ r, m_key r ≠ key) data) ∧ w_files w' = w_files w.
Proof.
  intros Hin Hmeta Hfind Hd Hcs.
  rewrite (delete_key1_spec w key rest data pc d cs) by done.
  do 2 eexists; split; [reflexivity|]. cbn. split; [done|].
  split; [by apply remove_chunks_holds_nil|]. split; [|done].
  intros k Hk. by apply remove_chunks_other.
Qed.

(** C5 *)
(** The message of [delete_key1] when the container holds entries of
    other keys: the pop loop runs over [range(len(daos_dict))], so after
    the key's [n] chunks it pops [<key>chunk<n>], which is absent; the
    [KeyError] is caught and "Error delete  key" is printed although every
    chunk of the key was removed. *)
Theorem delete_key1_reports_error (w : World D) (key : string) (rest : list string)
    (data : list MetaRecord) (pc : string * string) (d : D) (cs : list bytes) :
  w_stdin w = key :: rest ->
  w_meta w = Some data -> Meta.find_pool_container key data = Some pc ->
  w_daos w !! pc = Some (Some d) -> holds_chunks d key cs -> length cs < dd_len d ->
  ∃ w', delete_key1 w = (w', inr tt) ∧
    w_out w' = w_out w ++ [MsgAllDeleted key;
                           MsgDeleteError (KeyError (chunk_key key (length cs)))].
Proof.
  intros Hin Hmeta Hfind Hd Hcs Hlt.
  rewrite (delete_key1_spec w key rest data pc d cs) by done.
  eexists; split; [reflexivity|]. cbn. unfold delete_outcome.
  by rewrite decide_False, decide_True by lia.
Qed.


(** C7 *)
(** A chunk size of 0 (the start-up prompt accepts any integer): the read
    loop stops at once, the upload reports 0 chunks, and the record it
    appended points to a container with no chunk of the key, so the next
    read of the key prints "Key not found.". *)
Theorem upload_zero_chunk_size (w : World D) (pool c : string) (cs' : list string)
    (od : option D) (key path : string) (rest : list string) (data : bytes) :
  w_discovery w = (pool, c :: cs') -> w_daos w !! (pool, c) = Some od ->
  holds_chunks (dict_or_empty od) key [] ->
  (Meta.get_pool_and_container key (w_meta w)).1 = None ->
  w_stdin w = key :: path :: key :: rest -> w_files w !! path = Some data ->
  ∃ w', (upload_file 0 ;; read_key) w = (w', inr tt) ∧
    w_out w' = w_out w ++ [MsgUploaded 0 1; MsgKeyNotFound] ∧
    (Meta.get_pool_and_container key (w_meta w')).1 = Some (pool, c).
Proof.
  intros Hdisc Hc Hfresh Hnorec Hin Hf. unfold bind.
  rewrite (upload_file_ok w 0 pool c cs' od key path (key :: rest) data) by done.
  destruct (append_fresh_found (w_meta w) (upload_record pool c key path data (w_clock w)) Hnorec)
    as [Happ Hfound].
  rewrite (read_key_no_chunks _ key rest
    (default [] (w_meta w) ++ [upload_record pool c key path data (w_clock w)])
    (pool, c) (dict_or_empty od)).
  - eexists; split; [reflexivity|]. split; [cbn; by world_norm|].
    cbn [w_meta set_out set_clock set_stdin set_meta]. rewrite Happ. exact Hfound.
  - done.
  - exact Happ.
  - exact Hfound.
  - cbn. by rewrite lookup_insert_eq.
  - exact Hfresh.
Qed.

(** C8 *)
(** Uploading a directory: [os.path.exists] accepts it, the record is
    appended before [open] fails with [IsADirectoryError], so the key has a
    record and no chunk: the error is printed, and a read of the key prints
    "Key not found.". *)
Theorem upload_directory_orphan (w : World D) (chunk_size : Z) (pool c : string)
    (cs' : list string) (d : D) (key path : string) (rest : list string) :
  w_discovery w = (pool, c :: cs') -> w_daos w !! (pool, c) = Some (Some d) ->
  holds_chunks d key [] -> (Meta.get_pool_and_container key (w_meta w)).1 = None ->
  w_stdin w = key :: path :: key :: rest -> w_files w !! path = None -> path ∈ w_dirs w ->
  ∃ w', (upload_file chunk_size ;; read_key) w = (w', inr tt) ∧
    w_out w' = w_out w ++ [MsgUploadError (IsADirectoryError path); MsgKeyNotFound] ∧
    (Meta.get_pool_and_container key (w_meta w')).1 = Some (pool, c).
Proof.
  intros Hdisc Hc Hfresh Hnorec Hin Hf Hdir. unfold bind.
  rewrite (upload_file_unreadable w chunk_size pool c cs' d key path (key :: rest)) by done.
  destruct (append_fresh_found (w_meta w)
              (mkMeta pool c key (basename path) dir_entry_size (w_clock w)) Hnorec)
    as [Happ Hfound].
  rewrite (read_key_no_chunks _ key rest
    (default [] (w_meta w) ++ [mkMeta pool c key (basename path) dir_entry_size (w_clock w)])
    (pool, c) d).
  - eexists; split; [reflexivity|]. split; [cbn; by world_norm|].
    cbn [w_meta set_out set_clock set_stdin set_meta]. rewrite Happ. exact Hfound.
  - done.
  - exact Happ.
  - exact Hfound.
  - exact Hc.
  - exact Hfresh.
Qed.

(** C9 *)
(** An upload under [key] keeps the chunks of every other key [key'] in
    every container, and the record a read of [key'] finds. *)
Theorem upload_preserves_other_chunks (w : World D) (chunk_size : Z) (pool c : string)
    (cs' : list string) (od : option D) (key path : string) (rest : list string)
    (data : bytes) (key' : string) (pc : string * string) (d : D) (cs : list bytes) :
  w_discovery w = (pool, c :: cs') -> w_daos w !! (pool, c) = Some od ->
  w_stdin w = key :: path :: rest -> w_files w !! path = Some data ->
  key' ≠ key -> w_daos w !! pc = Some (Some d) -> holds_chunks d key' cs ->
  ∃ w' d', upload_file chunk_size w = (w', inr tt) ∧
    w_daos w' !! pc = Some (Some d') ∧ holds_chunks d' key' cs ∧
    (Meta.get_pool_and_container key' (w_meta w')).1 =
      (Meta.get_pool_and_container key' (w_meta w)).1.
Proof.
  intros Hdisc Hc Hin Hf Hne Hd Hcs.
  rewrite (upload_file_ok w chunk_size pool c cs' od key path rest data) by done.
  destruct (decide (pc = (pool, c))) as [->|Hpc].
  - rewrite Hc in Hd. injection Hd as ->. do 2 eexists; split; [reflexivity|]. cbn.
    rewrite lookup_insert_eq. split; [done|]. split; [by apply bput_holds_other|].
    rewrite Meta.find_pool_container_app, decide_False by done.
    by destruct (w_meta w); cbn; [destruct Meta.find_pool_container|].
  - eexists; exists d. split; [reflexivity|]. cbn. rewrite lookup_insert_ne by congruence.
    split; [done|]. split; [done|].
    rewrite Meta.find_pool_container_app, decide_False by done.
    by destruct (w_meta w); cbn; [destruct Meta.find_pool_container|].
Qed.

(** C18 *)
(** When no container of the discovered pool opens, [get_daos_container]
    prints an error for each and returns [None]; the unpacking in
    [upload_file] raises [TypeError] outside any [try], so the exception
    leaves the handler (and the command loop, which has no [try]) before
    anything is read or stored. *)
Theorem upload_no_container (w : World D) (chunk_size : Z) (pool : string) (cs : list string) :
  w_discovery w = (pool, cs) -> Forall (λ c, w_daos w !! (pool, c) = None) cs ->
  upload_file chunk_size w =
    (set_out (w_out w ++ ((λ c, MsgContainerError c (DaosError pool c)) <$> cs)) w, inl TypeError).
Proof.
  intros Hdisc Hcs. unfold upload_file, get_daos_container. st_run. rewrite Hdisc. cbn [fst snd].
  rewrite try_containers_none by done. st_run. by rewrite Hdisc.
Qed.

(** C19 *)
(** [delete_key] (not reachable from the command loop) on a key stored
    under its bare name: it removes the bare key and every entry whose name
    starts with [<key>chunk], which includes the chunks of any other key
    with that prefix (the chunks of "achunk1" when deleting "a"), and it
    keeps the metadata records of the key. *)
Theorem delete_key_removes_prefixed (w : World D) (key : string) (rest : list string)
    (data : list MetaRecord) (pc : string * string) (d : D) (v : bytes) :
  w_stdin w = key :: rest ->
  w_meta w = Some data -> Meta.find_pool_container key data = Some pc ->
  w_daos w !! pc = Some (Some d) -> dd_get d key = Some v ->
  ∃ w' d', delete_key w = (w', inr tt) ∧ w_daos w' = <[pc := Some d']> (w_daos w) ∧
    w_meta w' = w_meta w ∧
    ∀ k, dd_get d' k = if decide (k = key ∨ py_startswith k (key +:+ "chunk") = true)
                       then None else dd_get d k.
Proof.
  intros Hin Hmeta Hfind Hd Hv. rewrite (delete_key_present w key rest data pc d v) by done.
  do 2 eexists; split; [reflexivity|]. cbn. split; [done|]. split; [done|].
  intros k. rewrite remove_keys_get, !dd_get_remove.
  destruct (decide (key = k)) as [<-|Hne].
  { rewrite (decide_True (P := key = key ∨ _)) by auto. by case_decide. }
  destruct (py_startswith k (key +:+ "chunk")) eqn:Hp.
  - rewrite (decide_True (P := k = key ∨ true = true)) by auto.
    destruct (dd_get d k) as [u|] eqn:Hk; case_decide as Hin'; try done. exfalso. apply Hin'.
    apply list_elem_of_filter. split; [done|]. apply dd_keys_spec.
    rewrite dd_get_remove, decide_False by done. by eexists.
  - rewrite (decide_False (P := k = key ∨ _)) by (intros [? | ?]; congruence).
    rewrite decide_False; [done|]. intros [? _]%list_elem_of_filter. congruence.
Qed.

(** C20 *)
(** [delete_key] on a key written by [upload_file], which stores only the
    chunk entries [<key>chunk<i>] and never the bare key: [key in
    daos_dict] is false, "no key found" is printed, and neither the chunks
    nor the records are removed. *)
Theorem delete_key_misses_uploaded_key (w : World D) (key : string) (rest : list string)
    (data : list MetaRecord) (pc : string * string) (d : D) :
  w_stdin w = key :: rest ->
  w_meta w = Some data -> Meta.find_pool_container key data = Some pc ->
  w_daos w !! pc = Some (Some d) -> dd_get d key = None ->
  delete_key w = (set_out (w_out w ++ [MsgNoKeyFound]) (set_stdin rest w), inr tt).
Proof.
  intros Hin Hmeta Hfind Hd Hv. unfold delete_key. st_run. rewrite Hin. st_run. rewrite Hmeta.
  cbn. rewrite Hfind. destruct pc as [p c]. st_run. rewrite Hd. st_run. rewrite Hd. st_run.
  rewrite Hd. unfold dd_contains. rewrite bool_decide_false by (rewrite Hv; apply is_Some_None).
  st_run. by world_norm.
Qed.

(** C28 *)
(** What [read_key] saves from any container, contiguous or not: the
    chunks of the key present at the indices below [len(daos_dict)],
    concatenated in index order, with their number as the chunk count; a
    missing chunk is skipped and the read still reports success (the
    spec's ChunkGap), and chunks at indices at or past [len(daos_dict)] are
    not read.  When nothing is present it prints "Key not found.". *)
Theorem read_key_assembles_present (w : World D) (key : string) (rest : list string)
    (data : list MetaRecord) (pc : string * string) (d : D) :
  w_stdin w = key :: rest ->
  w_meta w = Some data -> Meta.find_pool_container key data = Some pc ->
  w_daos w !! pc = Some (Some d) -> can_create w (save_path key) ->
  ∃ w', read_key w = (w', inr tt) ∧ w_stdin w' = rest ∧
    (concat (present_chunks d key) ≠ [] ->
       w_files w' !! save_path key = Some (concat (present_chunks d key)) ∧
       last (w_out w') = Some (MsgReadOk (length (present_chunks d key)) 1)) ∧
    (concat (present_chunks d key) = [] ->
       w_files w' = w_files w ∧ last (w_out w') = Some MsgKeyNotFound).
Proof.
  intros Hin Hmeta Hfind Hd Hcr. rewrite (read_key_present w key rest data pc d) by done.
  destruct (concat (present_chunks d key)) as [|b l] eqn:Hc;
    (eexists; split; [reflexivity|]); cbn; (split; [done|]); split; intros Hz; try done.
  - by rewrite last_snoc.
  - rewrite lookup_insert_eq. by rewrite last_app_cons.
Qed.

(** C29 *)
(** Deleting a key that has no record: the unpacking of [None] raises
    [TypeError] before [delete_by_key] runs, the handler prints "Error
    delete  key", and neither the metadata, the store nor the files
    change. *)
Theorem delete_without_record (w : World D) (key : string) (rest : list string) :
  w_stdin w = key :: rest -> (Meta.get_pool_and_container key (w_meta w)).1 = None ->
  ∃ w', delete_key1 w = (w', inr tt) ∧ w_daos w' = w_daos w ∧ w_files w' = w_files w ∧
    w_meta w' = w_meta w ∧ w_stdin w' = rest ∧
    last (w_out w') = Some (MsgDeleteError TypeError).
Proof.
  intros Hin Hnone. destruct (Meta.get_pool_and_container key (w_meta w)) as [r ms] eqn:Hg.
  cbn in Hnone. subst r. unfold delete_key1, delete_body. st_run. rewrite Hin. st_run.
  rewrite Hg. st_run. eexists; split; [reflexivity|]. cbn. by rewrite ?app_assoc, last_snoc.
Qed.

End EndToEnd.


(** C2 at a key that was never uploaded. *)
Lemma read_without_record_witness :
  ∃ w', read_key (stored_world ∅ ["doc2"]) = (w', inr tt) ∧
    w_daos w' = w_daos (stored_world ∅ ["doc2"]) ∧
    w_files w' = w_files (stored_world ∅ ["doc2"]) ∧
    w_meta w' = w_meta (stored_world ∅ ["doc2"]) ∧ w_stdin w' = [] ∧
    last (w_out w') = Some (MsgReadError TypeError).
Proof. apply (read_without_record (stored_world ∅ ["doc2"]) "doc2" []); witness_hyp. Defined.

(** C3 at the stored [doc1]. *)
Lemma delete_then_read_witness :
  ∃ w' d', (delete_key1 ;; read_key) (stored_world ∅ ["doc1"; "doc1"]) = (w', inr tt) ∧
    w_daos w' !! ("pool1", "cont1") = Some (Some d') ∧ holds_chunks d' "doc1" [] ∧
    (Meta.get_pool_and_container "doc1" (w_meta w')).1 = None ∧
    w_files w' = w_files (stored_world ∅ ["doc1"; "doc1"]) ∧
    last (w_out w') = Some (MsgReadError TypeError).
Proof.
  apply (delete_then_read (stored_world ∅ ["doc1"; "doc1"]) "doc1" [] [doc1_record]
           ("pool1", "cont1") (doc1_dict ∅) doc1_chunks); witness_hyp.
Defined.

(** C4 at the stored [doc1] beside a chunk of another key. *)
Lemma delete_key1_removes_chunks_witness :
  ∃ w' d', delete_key1 (stored_world {["doc2chunk0" := bytes_of "Z"]} ["doc1"]) = (w', inr tt) ∧
    w_daos w' = <[("pool1", "cont1") := Some d']>
                  (w_daos (stored_world {["doc2chunk0" := bytes_of "Z"]} ["doc1"])) ∧
    holds_chunks d' "doc1" [] ∧
    (∀ k, (∀ i, k ≠ chunk_key "doc1" i) ->
          dd_get d' k = dd_get (doc1_dict {["doc2chunk0" := bytes_of "Z"]}) k) ∧
    w_meta w' = Some (filter (λ r, m_key r ≠ "doc1") [doc1_record]) ∧
    w_files w' = w_files (stored_world {["doc2chunk0" := bytes_of "Z"]} ["doc1"]).
Proof.
  apply (delete_key1_removes_chunks (stored_world {["doc2chunk0" := bytes_of "Z"]} ["doc1"])
           "doc1" [] [doc1_record] ("pool1", "cont1") (doc1_dict {["doc2chunk0" := bytes_of "Z"]})
           doc1_chunks); witness_hyp.
Defined.

(** C5 at the same container: "doc1" has 3 chunks among 4 entries, and
    the loop stops at "doc1chunk3". *)
Lemma delete_key1_reports_error_witness :
  ∃ w', delete_key1 (stored_world {["doc2chunk0" := bytes_of "Z"]} ["doc1"]) = (w', inr tt) ∧
    w_out w' = [MsgAllDeleted "doc1"; MsgDeleteError (KeyError (chunk_key "doc1" 3))].
Proof.
  apply (delete_key1_reports_error (stored_world {["doc2chunk0" := bytes_of "Z"]} ["doc1"])
           "doc1" [] [doc1_record] ("pool1", "cont1") (doc1_dict {["doc2chunk0" := bytes_of "Z"]})
           doc1_chunks); witness_hyp.
Defined.


(** C7 at the spec's scenario with a chunk size of 0. *)
Lemma upload_zero_chunk_size_witness :
  ∃ w', (upload_file 0 ;; read_key) (doc1_world ["doc1"; "/data/f.bin"; "doc1"]) = (w', inr tt) ∧
    w_out w' = [MsgUploaded 0 1; MsgKeyNotFound] ∧
    (Meta.get_pool_and_container "doc1" (w_meta w')).1 = Some ("pool1", "cont1").
Proof.
  apply (upload_zero_chunk_size (doc1_world ["doc1"; "/data/f.bin"; "doc1"]) "pool1" "cont1" []
           None "doc1" "/data/f.bin" [] (bytes_of "ABCDE")); witness_hyp.
Defined.

(** C8 with the directory "/data" given as the file of "doc2". *)
Lemma upload_directory_orphan_witness :
  ∃ w', (upload_file 2 ;; read_key) (stored_world ∅ ["doc2"; "/data"; "doc2"]) = (w', inr tt) ∧
    w_out w' = [MsgUploadError (IsADirectoryError "/data"); MsgKeyNotFound] ∧
    (Meta.get_pool_and_container "doc2" (w_meta w')).1 = Some ("pool1", "cont1").
Proof.
  apply (upload_directory_orphan (stored_world ∅ ["doc2"; "/data"; "doc2"]) 2 "pool1" "cont1" []
           (doc1_dict ∅) "doc2" "/data" []); witness_hyp.
Defined.

(** C9 with "doc2" uploaded beside the stored [doc1]. *)
Lemma upload_preserves_other_chunks_witness :
  ∃ w' d', upload_file 2 (stored_world ∅ ["doc2"; "/data/g.bin"]) = (w', inr tt) ∧
    w_daos w' !! ("pool1", "cont1") = Some (Some d') ∧ holds_chunks d' "doc1" doc1_chunks ∧
    (Meta.get_pool_and_container "doc1" (w_meta w')).1 =
      (Meta.get_pool_and_container "doc1" (w_meta (stored_world ∅ ["doc2"; "/data/g.bin"]))).1.
Proof.
  apply (upload_preserves_other_chunks (stored_world ∅ ["doc2"; "/data/g.bin"]) 2 "pool1" "cont1"
           [] (Some (doc1_dict ∅)) "doc2" "/data/g.bin" [] (bytes_of "XY") "doc1"
           ("pool1", "cont1") (doc1_dict ∅) doc1_chunks); witness_hyp.
Defined.

(** C18 with two containers that do not exist. *)
Lemma upload_no_container_witness :
  upload_file 2 lost_world =
    (set_out (w_out lost_world ++ ((λ c, MsgContainerError c (DaosError "pool1" c)) <$> ["cont2"; "cont3"]))
       lost_world, inl TypeError).
Proof. apply (upload_no_container lost_world 2 "pool1" ["cont2"; "cont3"]); witness_hyp. Defined.

(** C19 deleting "a" beside the key "achunk1". *)
Lemma delete_key_removes_prefixed_witness :
  ∃ w' d', delete_key prefix_world = (w', inr tt) ∧
    w_daos w' = <[("pool1", "cont1") := Some d']> (w_daos prefix_world) ∧
    w_meta w' = w_meta prefix_world ∧
    ∀ k, dd_get d' k = if decide (k = "a" ∨ py_startswith k ("a" +:+ "chunk") = true)
                       then None else dd_get prefix_dict k.
Proof.
  apply (delete_key_removes_prefixed prefix_world "a" [] [mkMeta "pool1" "cont1" "a" "a.bin" 1 0]
           ("pool1", "cont1") prefix_dict (bytes_of "0")); witness_hyp.
Defined.

(** C20 at the stored [doc1]. *)
Lemma delete_key_misses_uploaded_key_witness :
  delete_key (stored_world ∅ ["doc1"]) =
    (set_out (w_out (stored_world ∅ ["doc1"]) ++ [MsgNoKeyFound])
       (set_stdin [] (stored_world ∅ ["doc1"])), inr tt).
Proof.
  apply (delete_key_misses_uploaded_key (stored_world ∅ ["doc1"]) "doc1" [] [doc1_record]
           ("pool1", "cont1") (doc1_dict ∅)); witness_hyp.
Defined.

(** C28 on [gap_world]: "doc1chunk1" is missing and [len] is 2, so only
    "AB" is read back. *)
Lemma read_key_assembles_present_witness :
  ∃ w', read_key gap_world = (w', inr tt) ∧ w_stdin w' = [] ∧
    (concat (present_chunks {["doc1chunk0" := bytes_of "AB"; "doc1chunk2" := bytes_of "E"]} "doc1") ≠ [] ->
       w_files w' !! save_path "doc1" =
         Some (concat (present_chunks {["doc1chunk0" := bytes_of "AB"; "doc1chunk2" := bytes_of "E"]} "doc1")) ∧
       last (w_out w') =
         Some (MsgReadOk (length (present_chunks {["doc1chunk0" := bytes_of "AB";
                                                   "doc1chunk2" := bytes_of "E"]} "doc1")) 1)) ∧
    (concat (present_chunks {["doc1chunk0" := bytes_of "AB"; "doc1chunk2" := bytes_of "E"]} "doc1") = [] ->
       w_files w' = w_files gap_world ∧ last (w_out w') = Some MsgKeyNotFound).
Proof.
  apply (read_key_assembles_present gap_world "doc1" [] [doc1_record] ("pool1", "cont1")
           {["doc1chunk0" := bytes_of "AB"; "doc1chunk2" := bytes_of "E"]}); witness_hyp.
Defined.

(** C29 at a key that was never uploaded. *)
Lemma delete_without_record_witness :
  ∃ w', delete_key1 (stored_world ∅ ["doc2"]) = (w', inr tt) ∧
    w_daos w' = w_daos (stored_world ∅ ["doc2"]) ∧
    w_files w' = w_files (stored_world ∅ ["doc2"]) ∧
    w_meta w' = w_meta (stored_world ∅ ["doc2"]) ∧ w_stdin w' = [] ∧
    last (w_out w') = Some (MsgDeleteError TypeError).
Proof. apply (delete_without_record (stored_world ∅ ["doc2"]) "doc2" []); witness_hyp. Defined.
