(* ===== verification/Shell.v ===== *)
(** * Shell: the start-up code and the command loop

    Lines 16-20 and 232-252 of [src/auto_chunk.py]:
    - [startup]: [os.makedirs(upload_dir, exist_ok=True)], then
      [n = int(input(...))] and [CHUNK_SIZE = n * 1024 * 1024]; [py_int] is
      CPython's [int(str)] in base 10 on 8-bit characters (surrounding
      whitespace, one sign, digits with single underscores between them);
    - [command]: the dispatch of one command line, [false] for [q];
    - [iteration]: one turn of [while True] (the banner, [print_help()],
      the command prompt, the dispatch);
    - [main_loop]: the loop, with fuel; [program]: start-up, loop, and the
      final "Program ended." after [q].

    Every handler reads at most the lines it prompts for, and the prompt of
    each turn reads one: [stdin_len] never grows along a handler
    ([nonincr], proved by [nonincr_solve] from the [pyauto] hints) and
    shrinks at each turn, so [S (length stdin)] turns always end the loop
    (at [q], or at the [EOFError] of the prompt on exhausted input). *)

From stdpp Require Import base list strings gmap.
From Stdlib Require Import ZArith Ascii DecimalString DecimalNat.
From S2P Require Import Prelude KeyFormat ChunkCodec KVStore Metadata World Handlers.
Import ChunkKey PyPath.

Local Open Scope py_scope.

(** ** [int(s)] *)

(** [str.isspace] on the code points 0-255. *)
Definition is_py_space (c : ascii) : bool :=
  let n := nat_of_ascii c in bool_decide (9 <= n <= 13 ∨ 28 <= n <= 32 ∨ n = 133 ∨ n = 160).

Definition digit_value (c : ascii) : Z := (Z.of_nat (nat_of_ascii c) - 48)%Z.

(** The digits of a base-10 literal, with an underscore allowed only
    between two digits; [after_digit] says that the previous character was
    a digit. *)
Fixpoint digits_value (l : list ascii) (acc : Z) (after_digit : bool) : option Z :=
  match l with
  | [] => if after_digit then Some acc else None
  | c :: l' =>
      if is_digit c then digits_value l' (10 * acc + digit_value c)%Z true
      else if bool_decide (c = "_"%char) && after_digit then digits_value l' acc false
      else None
  end.

Definition strip_spaces (l : list ascii) : list ascii :=
  rev (drop_while is_py_space (rev (drop_while is_py_space l))).

(** [str(z)] for a Python integer [z]. *)
Definition decimal_of_Z (z : Z) : string :=
  if (z <? 0)%Z then "-" +:+ str_of_nat (Z.to_nat (- z)) else str_of_nat (Z.to_nat z).

Definition py_int (s : string) : option Z :=
  match strip_spaces (String.list_ascii_of_string s) with
  | [] => None
  | c :: r =>
      if bool_decide (c = "-"%char) then Z.opp <$> digits_value r 0 false
      else if bool_decide (c = "+"%char) then digits_value r 0 false
      else digits_value (c :: r) 0 false
  end.

Section Shell.
Context `{DDictLaws D}.
Local Notation M := (st (World D)).

(** Lines 16-20 *)
Definition startup : M Z :=
  makedirs upload_dir ;;
  s <- input ;;
  n <- (match py_int s with Some n => ret n | None => raise (ValueError s) end) ;;
  ret (n * 1024 * 1024)%Z.

(** Lines 237-250: [true] to go on, [false] for [break]. *)
Definition command (chunk_size : Z) (cmd : string) : M bool :=
  if decide (cmd = "?") then print MsgHelp ;; ret true
  else if decide (cmd = "r") then read_key ;; ret true
  else if decide (cmd = "u") then upload_file chunk_size ;; ret true
  else if decide (cmd = "p") then delete_key1 ;; ret true
  else if decide (cmd = "d") then print_keys ;; ret true
  else if decide (cmd = "q") then ret false
  else print MsgInvalid ;; ret true.

(** Lines 233-235 and the dispatch. *)
Definition iteration (chunk_size : Z) : M bool :=
  print MsgCommands ;; print MsgHelp ;; cmd <- input ;; command chunk_size cmd.

(** Lines 232-250: [None] when the fuel runs out. *)
Fixpoint main_loop (fuel : nat) (chunk_size : Z) (w : World D)
    : option (World D * (exn + unit)) :=
  match fuel with
  | O => None
  | S fuel' =>
      match iteration chunk_size w with
      | (w', inl e) => Some (w', inl e)
      | (w', inr true) => main_loop fuel' chunk_size w'
      | (w', inr false) => Some (w', inr tt)
      end
  end.

(** The whole program: the start-up code, the loop, and line 252 after a
    [break]; an exception is uncaught and ends the program. *)
Definition program (fuel : nat) (w : World D) : option (World D * (exn + unit)) :=
  match startup w with
  | (w1, inl e) => Some (w1, inl e)
  | (w1, inr chunk_size) =>
      match main_loop fuel chunk_size w1 with
      | Some (w2, inr _) => Some (print MsgEnded w2)
      | r => r
      end
  end.

(** Enough turns for any input: one per line and one more. *)
Definition program_fuel (w : World D) : nat := S (length (w_stdin w)).

(** ** No handler reads more input than it prompts for *)

Lemma save_value_as_file_nonincr key v : nonincr stdin_len (save_value_as_file (D := D) key v).
Proof. unfold save_value_as_file. nonincr_solve. Qed.

Lemma try_containers_nonincr pool cs : nonincr stdin_len (try_containers (D := D) pool cs).
Proof. induction cs; simpl; nonincr_solve. Qed.

Lemma pop_all_nonincr h ks : nonincr stdin_len (pop_all (D := D) h ks).
Proof. induction ks as [|[k []] ks IH]; simpl; nonincr_solve. Qed.

Lemma pop_matching_nonincr h p ks : nonincr stdin_len (pop_matching (D := D) h p ks).
Proof. induction ks; simpl; nonincr_solve. Qed.

End Shell.

#[export] Hint Resolve save_value_as_file_nonincr try_containers_nonincr pop_all_nonincr
  pop_matching_nonincr : pyauto.

Section ShellLoop.
Context `{DDictLaws D}.

Lemma handlers_nonincr (chunk_size : Z) :
  nonincr stdin_len (read_key (D := D)) ∧ nonincr stdin_len (upload_file (D := D) chunk_size) ∧
  nonincr stdin_len (delete_key1 (D := D)) ∧ nonincr stdin_len (delete_key (D := D)).
Proof.
  unfold read_key, read_body, upload_file, get_daos_container, upload_body, delete_key1,
    delete_body, delete_key. split_and!; nonincr_solve.
Qed.

Lemma command_nonincr (chunk_size : Z) (cmd : string) :
  nonincr stdin_len (command (D := D) chunk_size cmd).
Proof.
  destruct (handlers_nonincr chunk_size) as (? & ? & ? & ?).
  unfold command. repeat case_decide; nonincr_solve.
Qed.

Lemma iteration_command (chunk_size : Z) (w : World D) (cmd : string) (rest : list string) :
  w_stdin w = cmd :: rest ->
  iteration chunk_size w =
    command chunk_size cmd (set_stdin rest (set_out (w_out w ++ [MsgCommands; MsgHelp]) w)).
Proof. intros Hin. unfold iteration. st_run. rewrite Hin. by world_norm. Qed.

(** Each turn that goes on reads at least its command line. *)
Lemma iteration_shortens (chunk_size : Z) (w w' : World D) (b : bool) :
  iteration chunk_size w = (w', inr b) -> stdin_len w' < stdin_len w.
Proof.
  destruct (w_stdin w) as [|cmd rest] eqn:Hin.
  - unfold iteration. st_run. by rewrite Hin.
  - rewrite (iteration_command _ _ cmd rest Hin). intros Hc.
    pose proof (command_nonincr chunk_size cmd
      (set_stdin rest (set_out (w_out w ++ [MsgCommands; MsgHelp]) w))) as Hn.
    rewrite Hc in Hn. unfold stdin_len in *. cbn in Hn. rewrite Hin. cbn. lia.
Qed.

Lemma main_loop_is_Some (n : nat) (chunk_size : Z) (w : World D) :
  stdin_len w < n -> is_Some (main_loop n chunk_size w).
Proof.
  revert w. induction n as [|n IH]; intros w Hn; [lia|]. simpl.
  destruct (iteration chunk_size w) as [w' [e|[|]]] eqn:Hi; try by eexists.
  apply IH. apply iteration_shortens in Hi. lia.
Qed.

Lemma main_loop_continue (fuel : nat) (chunk_size : Z) (w w' : World D) :
  iteration chunk_size w = (w', inr true) ->
  main_loop (S fuel) chunk_size w = main_loop fuel chunk_size w'.
Proof. intros Hi. simpl. by rewrite Hi. Qed.

Lemma main_loop_quit (fuel : nat) (chunk_size : Z) (w : World D) (rest : list string) :
  w_stdin w = "q" :: rest ->
  main_loop (S fuel) chunk_size w =
    Some (set_stdin rest (set_out (w_out w ++ [MsgCommands; MsgHelp]) w), inr tt).
Proof. intros Hin. simpl. rewrite (iteration_command _ _ "q" rest Hin). done. Qed.

(** [startup] on every branch, when [uploads] is not a regular file. *)
Lemma startup_spec (w : World D) (s : string) (rest : list string) :
  w_stdin w = s :: rest -> w_files w !! upload_dir = None ->
  startup w =
    (set_stdin rest (set_dirs ({[upload_dir]} ∪ w_dirs w) w),
     match py_int s with Some n => inr (n * 1024 * 1024)%Z | None => inl (ValueError s) end).
Proof.
  intros Hin Hf. unfold startup. st_run. case_bool_decide as Hd.
  - st_run. rewrite Hin. replace ({[upload_dir]} ∪ w_dirs w) with (w_dirs w) by set_solver.
    by destruct (py_int s); st_run.
  - rewrite Hf, bool_decide_false by (intros [? ?]; done). st_run. rewrite Hin.
    by destruct (py_int s); st_run.
Qed.

Lemma command_read (chunk_size : Z) : command (D := D) chunk_size "r" = (read_key ;; ret true).
Proof. reflexivity. Qed.

Lemma command_upload (chunk_size : Z) :
  command (D := D) chunk_size "u" = (upload_file chunk_size ;; ret true).
Proof. reflexivity. Qed.

Lemma command_delete (chunk_size : Z) : command (D := D) chunk_size "p" = (delete_key1 ;; ret true).
Proof. reflexivity. Qed.

(** A turn that runs a handler which returns normally. *)
Lemma main_loop_turn (fuel : nat) (chunk_size : Z) (w w' : World D) (cmd : string)
    (rest : list string) (m : st (World D) unit) :
  w_stdin w = cmd :: rest -> command chunk_size cmd = (m ;; ret true) ->
  m (set_stdin rest (set_out (w_out w ++ [MsgCommands; MsgHelp]) w)) = (w', inr tt) ->
  main_loop (S fuel) chunk_size w = main_loop fuel chunk_size w'.
Proof.
  intros Hin Hcmd Hm. apply main_loop_continue.
  rewrite (iteration_command _ _ cmd rest Hin), Hcmd. unfold bind. by rewrite Hm.
Qed.

(** A command line that calls no handler prints the help or the
    invalid-command line and goes on. *)
Lemma command_simple (chunk_size : Z) (cmd : string) :
  cmd ∉ ["r"; "u"; "p"; "d"; "q"] ->
  command (D := D) chunk_size cmd =
    (print (if decide (cmd = "?") then MsgHelp else MsgInvalid) ;; ret true).
Proof.
  intros Hc. unfold command. repeat case_decide; subst; try set_solver; done.
Qed.

(** The loop over command lines that call no handler, up to the end of
    the input, where the prompt raises [EOFError]. *)
Lemma main_loop_simple (fuel : nat) (chunk_size : Z) (cmds : list string) (w : World D) :
  w_stdin w = cmds -> length cmds < fuel -> Forall (λ c, c ∉ ["r"; "u"; "p"; "d"; "q"]) cmds ->
  ∃ w', main_loop fuel chunk_size w = Some (w', inl EOFError) ∧
    w_out w' = w_out w ++ concat ((λ c, [MsgCommands; MsgHelp;
                 if decide (c = "?") then MsgHelp else MsgInvalid]) <$> cmds) ++
               [MsgCommands; MsgHelp] ∧
    w_stdin w' = [] ∧ w_meta w' = w_meta w ∧ w_daos w' = w_daos w ∧ w_files w' = w_files w.
Proof.
  revert fuel w. induction cmds as [|c cmds IH]; intros fuel w Hin Hf Hc;
    (destruct fuel as [|fuel]; [cbn in Hf; lia|]).
  - cbn [main_loop]. unfold iteration. st_run. rewrite Hin.
    eexists; split; [reflexivity|]. cbn. by world_norm.
  - apply Forall_cons in Hc as [Hc Hcs].
    set (x := if decide (c = "?") then MsgHelp else MsgInvalid).
    set (w1 := set_stdin cmds (set_out (w_out w ++ [MsgCommands; MsgHelp]) w)).
    destruct (IH fuel (set_out (w_out w1 ++ [x]) w1)) as (w' & Hl & Hout & Hrest);
      [done|cbn in Hf; lia|done|].
    exists w'. rewrite (main_loop_turn _ _ _ (set_out (w_out w1 ++ [x]) w1) c cmds _ Hin
                          (command_simple chunk_size c Hc)); [|done].
    split; [done|]. rewrite Hout. cbn. by world_norm.
Qed.

(** [startup] reads the chunk size line. *)
Lemma startup_shortens (w w' : World D) (n : Z) :
  startup w = (w', inr n) -> stdin_len w' < stdin_len w.
Proof.
  unfold startup. st_run. unfold stdin_len.
  repeat case_bool_decide; destruct (w_stdin w) as [|s rest] eqn:Hin; cbn; intros Hs;
    try discriminate; destruct (py_int s); st_run; simplify_eq; cbn; lia.
Qed.

(** Termination of the program: from any state, the start-up code and the
    command loop end within [program_fuel] turns, one per input line and
    one more, either after [q] (printing "Program ended.") or with an
    uncaught exception, such as the [EOFError] of the prompt when the
    input is exhausted or the [TypeError] of an upload without container. *)
Theorem program_terminates (w : World D) : is_Some (program (program_fuel w) w).
Proof.
  unfold program, program_fuel. destruct (startup w) as [w1 [e|cs]] eqn:Hs; [by eexists|].
  apply startup_shortens in Hs.
  destruct (main_loop_is_Some (S (length (w_stdin w))) cs w1) as [[w2 [e|[]]] Hr];
    [unfold stdin_len in *; lia| |]; rewrite Hr; by eexists.
Qed.

End ShellLoop.

(** ** [int()] on the decimal strings of naturals *)

Lemma digits_value_uint_true (u : Decimal.uint) (acc : nat) :
  digits_value (String.list_ascii_of_string (NilEmpty.string_of_uint u)) (Z.of_nat acc) true =
    Some (Z.of_nat (Nat.of_uint_acc u acc)).
Proof.
  revert acc. induction u; intros acc; [done|..];
    cbn [NilEmpty.string_of_uint String.list_ascii_of_string digits_value Nat.of_uint_acc];
    rewrite <- IHu; f_equal; rewrite Nat.tail_mul_spec; unfold digit_value;
    match goal with
    | |- context [nat_of_ascii ?c] =>
        let v := eval vm_compute in (nat_of_ascii c) in change (nat_of_ascii c) with v
    end; lia.
Qed.

Lemma to_uint_not_nil (n : nat) : Nat.to_uint n ≠ Decimal.Nil.
Proof.
  intros Hn. destruct n as [|n]; [done|].
  pose proof (Unsigned.of_to (S n)) as Hof. rewrite Hn in Hof. done.
Qed.

Lemma digit_not_space (c : ascii) : is_digit c = true -> is_py_space c = false.
Proof.
  unfold is_digit, is_py_space. intros [?%Nat.leb_le ?%Nat.leb_le]%andb_true_iff.
  apply bool_decide_eq_false. lia.
Qed.

Lemma strip_spaces_id (l : list ascii) :
  Forall (λ c, is_py_space c = false) l -> strip_spaces l = l.
Proof.
  intros Hl. unfold strip_spaces. rewrite (drop_while_none _ l Hl), drop_while_none.
  - apply rev_involutive.
  - by apply Forall_rev.
Qed.

(** [str(n)]: its characters are digits, none of them a space, and the
    digits read back give [n]. *)
Lemma str_of_nat_value (n : nat) :
  ∃ c r, String.list_ascii_of_string (str_of_nat n) = c :: r ∧ is_digit c = true ∧
    Forall (λ c, is_py_space c = false) (c :: r) ∧
    ∀ b, digits_value (c :: r) 0 b = Some (Z.of_nat n).
Proof.
  pose proof (str_of_nat_digits n) as Hd. unfold str_of_nat in *.
  destruct (Nat.to_uint n) as [|u|u|u|u|u|u|u|u|u|u] eqn:Hu; [by destruct (to_uint_not_nil n)|..];
    cbn in Hd |- *; (do 2 eexists; split; [reflexivity|]); apply Forall_cons in Hd as [Hc Hr];
    (split; [done|]); (split; [constructor; [by apply digit_not_space|];
                                eapply Forall_impl; [exact Hr|]; intros ? ?; by apply digit_not_space|]);
    intros b; rewrite <- (Unsigned.of_to n), Hu; unfold Nat.of_uint;
    match goal with
    | |- _ = Some (Z.of_nat (Nat.of_uint_acc ?u 0)) => exact (digits_value_uint_true u 0)
    end.
Qed.

(** [int(str(n)) = n] and [int("-" + str(n)) = -n]. *)
Lemma py_int_str_of_nat (n : nat) :
  py_int (str_of_nat n) = Some (Z.of_nat n) ∧ py_int ("-" +:+ str_of_nat n) = Some (- Z.of_nat n)%Z.
Proof.
  destruct (str_of_nat_value n) as (c & r & Hs & Hc & Hsp & Hv). unfold py_int. split.
  - rewrite Hs, strip_spaces_id by done.
    rewrite !bool_decide_false by (intros ->; discriminate Hc). apply Hv.
  - change (String.list_ascii_of_string ("-" +:+ str_of_nat n))
      with ("-"%char :: String.list_ascii_of_string (str_of_nat n)).
    rewrite Hs, strip_spaces_id by (constructor; [reflexivity|done]).
    rewrite bool_decide_true by done. by rewrite Hv.
Qed.

Lemma py_int_decimal_of_Z (z : Z) : py_int (decimal_of_Z z) = Some z.
Proof.
  unfold decimal_of_Z. destruct (Z.ltb_spec z 0) as [Hz|Hz].
  - rewrite (proj2 (py_int_str_of_nat _)). f_equal. lia.
  - rewrite (proj1 (py_int_str_of_nat _)). f_equal. lia.
Qed.
