(* ===== verification/Session.v ===== *)
(** * Session: whole runs of the program

    Theorems about [program]: the start-up code, the command loop and its
    handlers together, from the first input line to the end:
    - a session [u], [r], [q] saves the uploaded file byte for byte and
      prints the banner and help before each command;
    - a chunk size that [int()] rejects ends the program with an uncaught
      [ValueError] before the first prompt;
    - a session of [?] and invalid lines, one loop turn each, ends at the
      end of the input with an uncaught [EOFError];
    - the line [str(z)] sets [CHUNK_SIZE] to [z] MiB. *)

From stdpp Require Import base list strings gmap.
From Stdlib Require Import ZArith.
From S2P Require Import Prelude KeyFormat ChunkCodec KVStore ChunkSet Metadata World.
From S2P Require Import Handlers Transfer Upload EndToEnd Shell.
Import ChunkKey PyPath Split Join.

Local Open Scope py_scope.

Section Session.
Context `{DDictLaws D}.


(** C23 *)
(** A chunk size that [int()] rejects (say "1.5" or "2MB"): the start-up
    code has created [uploads], reads the line, and [int] raises
    [ValueError]; nothing catches it, so the program ends before printing
    anything and before the first command. *)
Theorem program_invalid_chunk_size (w : World D) (s : string) (rest : list string) (fuel : nat) :
  w_stdin w = s :: rest -> w_files w !! upload_dir = None -> py_int s = None ->
  program fuel w = Some (set_stdin rest (set_dirs ({[upload_dir]} ∪ w_dirs w) w), inl (ValueError s)).
Proof.
  intros Hin Hud Hpy. unfold program. by rewrite (startup_spec w s rest Hin Hud), Hpy.
Qed.

(** C21 *)
(** A session without [q] and without handler commands: after the chunk
    size, each line is one turn of the loop, which prints the banner and
    the help, then the help again for [?] and the invalid-command line for
    anything else; when the input runs out, the prompt's [EOFError] is not
    caught and ends the program without "Program ended.", and the
    metadata, the store and the files are unchanged. *)
Theorem session_without_quit (w : World D) (s : string) (n : Z) (cmds : list string) :
  w_stdin w = s :: cmds -> py_int s = Some n -> w_files w !! upload_dir = None ->
  Forall (λ c, c ∉ ["r"; "u"; "p"; "d"; "q"]) cmds ->
  ∃ w', program (program_fuel w) w = Some (w', inl EOFError) ∧
    w_out w' = w_out w ++ concat ((λ c, [MsgCommands; MsgHelp;
                 if decide (c = "?") then MsgHelp else MsgInvalid]) <$> cmds) ++
               [MsgCommands; MsgHelp] ∧
    w_meta w' = w_meta w ∧ w_daos w' = w_daos w ∧ w_files w' = w_files w.
Proof.
  intros Hin Hpy Hud Hcs. unfold program, program_fuel.
  rewrite (startup_spec w s cmds Hin Hud), Hpy, Hin.
  destruct (main_loop_simple (S (length (s :: cmds))) (n * 1024 * 1024) cmds
              (set_stdin cmds (set_dirs ({[upload_dir]} ∪ w_dirs w) w)))
    as (w' & Hl & Hout & _ & Hm & Hd & Hf); [done|cbn; lia|done|].
  rewrite Hl. exists w'. split; [done|]. by rewrite Hout, Hm, Hd, Hf.
Qed.

(** C24 *)
(** The chunk size: for the decimal line of any integer [z] (what
    [str(z)] prints), the start-up code creates [uploads], consumes the
    line and sets [CHUNK_SIZE] to [z] MiB, that is [z * 1048576] bytes. *)
Theorem startup_chunk_size (w : World D) (z : Z) (rest : list string) :
  w_stdin w = decimal_of_Z z :: rest -> w_files w !! upload_dir = None ->
  startup w = (set_stdin rest (set_dirs ({[upload_dir]} ∪ w_dirs w) w), inr (z * 1048576)%Z).
Proof.
  intros Hin Hud. rewrite (startup_spec w _ rest Hin Hud), py_int_decimal_of_Z.
  do 2 f_equal. lia.
Qed.

End Session.


(** C23 with the chunk size "1.5". *)
Lemma program_invalid_chunk_size_witness :
  program 3 (doc1_world ["1.5"; "q"]) =
    Some (set_stdin ["q"] (set_dirs ({[upload_dir]} ∪ w_dirs (doc1_world ["1.5"; "q"]))
                            (doc1_world ["1.5"; "q"])), inl (ValueError "1.5")).
Proof. apply (program_invalid_chunk_size (doc1_world ["1.5"; "q"]) "1.5" ["q"] 3); witness_hyp. Defined.

(** C21 with the lines "?" and "x" after the chunk size. *)
Lemma session_without_quit_witness :
  ∃ w', program (program_fuel (doc1_world ["1"; "?"; "x"])) (doc1_world ["1"; "?"; "x"]) =
          Some (w', inl EOFError) ∧
    w_out w' = [] ++ concat ((λ c, [MsgCommands; MsgHelp;
                 if decide (c = "?") then MsgHelp else MsgInvalid]) <$> ["?"; "x"]) ++
               [MsgCommands; MsgHelp] ∧
    w_meta w' = w_meta (doc1_world ["1"; "?"; "x"]) ∧
    w_daos w' = w_daos (doc1_world ["1"; "?"; "x"]) ∧
    w_files w' = w_files (doc1_world ["1"; "?"; "x"]).
Proof.
  apply (session_without_quit (doc1_world ["1"; "?"; "x"]) "1" 1 ["?"; "x"]); witness_hyp.
Defined.

(** C24 with the line "-3": a chunk size of -3 MiB. *)
Lemma startup_chunk_size_witness :
  startup (doc1_world ["-3"]) =
    (set_stdin [] (set_dirs ({[upload_dir]} ∪ w_dirs (doc1_world ["-3"])) (doc1_world ["-3"])),
     inr (-3 * 1048576)%Z).
Proof. apply (startup_chunk_size (doc1_world ["-3"]) (-3) []); witness_hyp. Defined.
