(* ===== verification/Refinement.v ===== *)
(** * Refinement: the handlers implement a store of files

    The spec's contract for the Transfer Orchestrator (sections 3 and 4.4),
    as an abstract store [astore]: a map from each stored key to the bytes
    of its file.  [refines w A] relates a world to the abstract store:
    - a key of [A] is [stored]: its first record names a container whose
      chunks of the key are contiguous and concatenate to the file, and no
      other container holds a chunk of the key;
    - any other key is [absent]: no record, no chunk in any container.
    The simulation theorems show that [upload_file] of a fresh key,
    [read_key] and [delete_key1] act on [A] as insertion, lookup and
    removal, and keep [refines].  [refinesb] is a sound checker of
    [refines] ([refinesb_sound]), by which the witnesses establish it on a
    concrete world. *)

From stdpp Require Import base list strings gmap.
From Stdlib Require Import ZArith.
From S2P Require Import Prelude KeyFormat ChunkCodec KVStore ChunkSet Metadata World.
From S2P Require Import Handlers Transfer Upload EndToEnd.
Import ChunkKey PyPath Split Join.

Local Open Scope py_scope.

(** The abstract store: each stored key with the bytes of its file. *)
Abbreviation astore := (gmap string bytes).

(** The abstract store of [stored_world]: "doc1" holds "ABCDE". *)
Definition doc1_store : astore := {["doc1" := bytes_of "ABCDE"]}.

Section Refinement.
Context `{DDictLaws D}.

(** No container holds a chunk of [key], except possibly the one [ex]. *)
Definition no_chunks (daos : gmap (string * string) (option D)) (key : string)
    (ex : option (string * string)) : Prop :=
  ∀ pc d, daos !! pc = Some (Some d) -> Some pc ≠ ex -> holds_chunks d key [].

Definition stored (w : World D) (key : string) (data : bytes) : Prop :=
  ∃ recs pc d cs, w_meta w = Some recs ∧ Meta.find_pool_container key recs = Some pc ∧
    w_daos w !! pc = Some (Some d) ∧ holds_chunks d key cs ∧ concat cs = data ∧
    no_chunks (w_daos w) key (Some pc).

Definition absent (w : World D) (key : string) : Prop :=
  (Meta.get_pool_and_container key (w_meta w)).1 = None ∧ no_chunks (w_daos w) key None.

Definition refines (w : World D) (A : astore) : Prop :=
  ∀ key, match A !! key with
         | Some data => data ≠ [] ∧ stored w key data
         | None => absent w key
         end.

(** ** A checker *)

Definition no_chunksb (daos : gmap (string * string) (option D)) (key : string)
    (ex : option (string * string)) : bool :=
  forallb (λ '(pc, od), match od with
                        | Some d => bool_decide (Some pc = ex) || holds_chunksb d key []
                        | None => true
                        end) (map_to_list daos).

Definition storedb (w : World D) (key : string) (data : bytes) : bool :=
  match w_meta w with
  | Some recs =>
      match Meta.find_pool_container key recs with
      | Some pc =>
          match w_daos w !! pc with
          | Some (Some d) =>
              let cs := present_chunks d key in
              holds_chunksb d key cs && bool_decide (concat cs = data) &&
              no_chunksb (w_daos w) key (Some pc)
          | _ => false
          end
      | None => false
      end
  | None => false
  end.

(** Every record is of a key of [A], and every chunk key in a container is
    one of a key of [A]. *)
Definition only_keys_of (w : World D) (A : astore) : bool :=
  forallb (λ r, bool_decide (m_key r ∈ dom A)) (default [] (w_meta w)) &&
  forallb (λ '(_, od), match od with
                       | Some d =>
                           forallb (λ k, match parse_chunk_key k with
                                         | Some (k', i) => bool_decide (k = chunk_key k' i → k' ∈ dom A)
                                         | None => true
                                         end) (dd_keys d)
                       | None => true
                       end) (map_to_list (w_daos w)).

Definition refinesb (w : World D) (A : astore) : bool :=
  forallb (λ '(k, data), bool_decide (data ≠ []) && storedb w k data) (map_to_list A) &&
  only_keys_of w A.

(** ** Lemmas *)

Lemma no_chunksb_sound daos key ex : no_chunksb daos key ex = true -> no_chunks daos key ex.
Proof.
  unfold no_chunksb. rewrite forallb_forall. intros Hall pc d Hd Hex.
  specialize (Hall (pc, Some d)). apply holds_chunksb_spec.
  cbn in Hall. rewrite bool_decide_false in Hall by done. apply Hall.
  apply list_elem_of_In, elem_of_map_to_list, Hd.
Qed.

Lemma storedb_sound (w : World D) (key : string) (data : bytes) :
  storedb w key data = true -> stored w key data.
Proof.
  unfold storedb. destruct (w_meta w) as [recs|] eqn:Hm; [|done].
  destruct (Meta.find_pool_container key recs) as [pc|] eqn:Hf; [|done].
  destruct (w_daos w !! pc) as [[d|]|] eqn:Hd; [|done..].
  intros [[Hh Hc]%andb_true_iff Hn]%andb_true_iff.
  exists recs, pc, d, (present_chunks d key). split_and!; try done.
  - by apply holds_chunksb_spec.
  - by apply bool_decide_eq_true in Hc.
  - by apply no_chunksb_sound.
Qed.

Lemma only_keys_of_absent (w : World D) (A : astore) (key : string) :
  only_keys_of w A = true -> A !! key = None -> absent w key.
Proof.
  unfold only_keys_of. rewrite andb_true_iff, !forallb_forall.
  intros [Hrec Hchunks] HA. split.
  - destruct (w_meta w) as [recs|]; [|done]. cbn.
    rewrite Meta.find_pool_container_abs, (proj2 (Meta.meta_abs_None key recs)); [done|].
    apply Forall_forall. intros r Hr Hk. specialize (Hrec r (proj1 (list_elem_of_In _ _) Hr)).
    cbn in Hrec. apply bool_decide_eq_true in Hrec. rewrite elem_of_dom, Hk, HA in Hrec.
    by destruct Hrec.
  - intros pc d Hd _ i. rewrite lookup_nil.
    destruct (dd_get d (chunk_key key i)) as [v|] eqn:Hv; [exfalso|done].
    specialize (Hchunks (pc, Some d) (proj1 (list_elem_of_In _ _)
                  (proj2 (elem_of_map_to_list _ _ _) Hd))).
    cbn in Hchunks. rewrite forallb_forall in Hchunks.
    assert (chunk_key key i ∈ dd_keys d) as Hk%list_elem_of_In by (apply dd_keys_spec; by eexists).
    specialize (Hchunks _ Hk). rewrite parse_chunk_key_chunk_key in Hchunks.
    rewrite bool_decide_eq_true, elem_of_dom, HA in Hchunks.
    by destruct Hchunks.
Qed.

Lemma refinesb_sound (w : World D) (A : astore) : refinesb w A = true -> refines w A.
Proof.
  unfold refinesb. rewrite andb_true_iff, forallb_forall. intros [Hst Honly] key.
  destruct (A !! key) as [data|] eqn:HA; [|by apply (only_keys_of_absent w A)].
  assert (In (key, data) (map_to_list A)) as Hin by (apply list_elem_of_In, elem_of_map_to_list, HA).
  specialize (Hst _ Hin).
  apply andb_true_iff in Hst as [Hne Hs]. split; [by apply bool_decide_eq_true in Hne|].
  by apply storedb_sound.
Qed.

(** ** Frame lemmas *)

Lemma refines_frame (w w' : World D) (A : astore) :
  w_meta w' = w_meta w -> w_daos w' = w_daos w -> refines w A -> refines w' A.
Proof.
  intros Hm Hd HR key. specialize (HR key). unfold stored, absent in *. by rewrite Hm, Hd.
Qed.

Lemma no_chunks_insert (daos : gmap (string * string) (option D)) (key : string)
    (ex : option (string * string)) (pc : string * string) (d : D) :
  no_chunks daos key ex -> (Some pc ≠ ex -> holds_chunks d key []) ->
  no_chunks (<[pc := Some d]> daos) key ex.
Proof.
  intros Hn Hd pc' d' Hl Hex. destruct (decide (pc = pc')) as [<-|Hne].
  - rewrite lookup_insert_eq in Hl. injection Hl as <-. by apply Hd.
  - rewrite lookup_insert_ne in Hl by done. by apply (Hn pc').
Qed.



Lemma remove_chunks_holds_other (d : D) (key k : string) (cs : list bytes) (n : nat) :
  key ≠ k -> holds_chunks d k cs -> holds_chunks (remove_keys d (chunk_key key <$> seq 0 n)) k cs.
Proof.
  intros Hne Hd i. rewrite remove_chunks_other; [apply Hd|].
  intros j Hj. by apply chunk_key_inj in Hj as [-> _].
Qed.


(** ** Simulation *)


(** C26 *)
(** Read refines lookup: [read_key] keeps the relation, and saves the
    file of a stored key byte for byte, or, for a key the store does not
    hold, fails with the [TypeError] of the missing record and writes no
    file. *)
Theorem read_refines (w : World D) (A : astore) (key : string) (rest : list string) :
  refines w A -> w_stdin w = key :: rest -> can_create w (save_path key) ->
  ∃ w', read_key w = (w', inr tt) ∧ refines w' A ∧ w_stdin w' = rest ∧
    match A !! key with
    | Some data => w_files w' = <[save_path key := data]> (w_files w)
    | None => w_files w' = w_files w ∧ last (w_out w') = Some (MsgReadError TypeError)
    end.
Proof.
  intros HR Hin Hcr. pose proof (HR key) as Hkey. destruct (A !! key) as [data|] eqn:HA.
  - destruct Hkey as [Hne (recs & pc & d & cs & Hm & Hfd & Hd & Hh & Hcat & _)].
    rewrite (read_key_found w key rest recs pc d cs) by (try rewrite Hcat; done).
    eexists; split; [reflexivity|]. split; [by apply (refines_frame w)|]. cbn.
    by rewrite Hcat.
  - destruct Hkey as [Hg _].
    destruct (Meta.get_pool_and_container key (w_meta w)) as [o ms] eqn:Hget. cbn in Hg. subst o.
    rewrite (read_key_no_record w key rest ms) by done.
    eexists; split; [reflexivity|]. split; [by apply (refines_frame w)|]. cbn.
    by rewrite app_assoc, last_snoc.
Qed.

(** C27 *)
(** Delete refines removal: [delete_key1] of a key the store holds leaves
    a world that refines the store without the key (whatever message the
    pop loop ends with). *)
Theorem delete_refines (w : World D) (A : astore) (key : string) (rest : list string) :
  refines w A -> w_stdin w = key :: rest -> is_Some (A !! key) ->
  ∃ w', delete_key1 w = (w', inr tt) ∧ refines w' (delete key A) ∧ w_stdin w' = rest.
Proof.
  intros HR Hin [data HA]. pose proof (HR key) as Hkey. rewrite HA in Hkey.
  destruct Hkey as [_ (recs & pc & d & cs & Hm & Hfd & Hd & Hh & _ & Hn)].
  rewrite (delete_key1_spec w key rest recs pc d cs) by done.
  eexists; split; [reflexivity|]. split; [|done].
  intros k. cbn. destruct (decide (k = key)) as [->|Hk].
  - rewrite lookup_delete_eq. split; [cbn; apply Meta.find_pool_container_filter|].
    intros pc' d' Hl _. cbn in Hl. destruct (decide (pc = pc')) as [<-|Hpc].
    + rewrite lookup_insert_eq in Hl. injection Hl as <-. by apply remove_chunks_holds_nil.
    + rewrite lookup_insert_ne in Hl by done. apply (Hn pc'); congruence.
  - rewrite lookup_delete_ne by congruence. specialize (HR k).
    destruct (A !! k) as [dk|] eqn:HAk.
    + destruct HR as [Hne' (recs' & pc' & d' & cs' & Hm' & Hfd' & Hd' & Hh' & Hcat' & Hn')].
      rewrite Hm in Hm'. injection Hm' as <-. split; [done|].
      exists (filter (λ item, m_key item ≠ key) recs), pc'.
      destruct (decide (pc' = pc)) as [->|Hpc].
      * rewrite Hd in Hd'. injection Hd' as <-.
        exists (remove_keys d (chunk_key key <$> seq 0 (length cs))), cs'.
        split_and!; cbn; try done.
        -- by rewrite Meta.find_pool_container_filter_other by congruence.
        -- by rewrite lookup_insert_eq.
        -- by apply remove_chunks_holds_other.
        -- by apply no_chunks_insert.
      * exists d', cs'. split_and!; cbn; try done.
        -- by rewrite Meta.find_pool_container_filter_other by congruence.
        -- by rewrite lookup_insert_ne by congruence.
        -- apply no_chunks_insert; [done|]. intros Hex.
           apply remove_chunks_holds_other; [done|]. apply (Hn' pc); congruence.
    + destruct HR as [Hg Hn']. split.
      * rewrite Hm in Hg. cbn in *. by rewrite Meta.find_pool_container_filter_other by congruence.
      * apply no_chunks_insert; [done|]. intros _.
        apply remove_chunks_holds_other; [done|]. by apply (Hn' pc).
Qed.

End Refinement.


(** C26 reading "doc1" from [stored_world]. *)
Lemma read_refines_witness :
  ∃ w', read_key (stored_world ∅ ["doc1"]) = (w', inr tt) ∧ refines w' doc1_store ∧ w_stdin w' = [] ∧
    match doc1_store !! "doc1" with
    | Some data => w_files w' = <[save_path "doc1" := data]> (w_files (stored_world ∅ ["doc1"]))
    | None => w_files w' = w_files (stored_world ∅ ["doc1"]) ∧
              last (w_out w') = Some (MsgReadError TypeError)
    end.
Proof.
  apply (read_refines (stored_world ∅ ["doc1"]) doc1_store "doc1" []);
    [apply refinesb_sound; vm_compute; reflexivity | witness_hyp..].
Defined.

(** C27 deleting "doc1" from [stored_world]. *)
Lemma delete_refines_witness :
  ∃ w', delete_key1 (stored_world ∅ ["doc1"]) = (w', inr tt) ∧
    refines w' (delete "doc1" doc1_store) ∧ w_stdin w' = [].
Proof.
  apply (delete_refines (stored_world ∅ ["doc1"]) doc1_store "doc1" []);
    [apply refinesb_sound; vm_compute; reflexivity | reflexivity | eexists; reflexivity].
Defined.
